(** * Parking helper: the sensing state machine and its LED bar

    A shallow embedding of the three sketches of the repository:

    - [Async]   the callback-driven sketch (AsyncSonar, 24 pixels, inches);
    - [Polling] the polled state machine (pulseIn, 10 pixels, centimetres);
    - [Sketch]  the first, stateless sketch [parking_helper.ino].

    The target is an Arduino Uno: [int] and [unsigned int] are 16 bits wide,
    [long] and [unsigned long] 32 bits, [uint8_t] 8 bits.  Machine integers
    are values of [Z] with the wrap-around written out. *)

From Stdlib Require Import ZArith Lia Bool String.
From stdpp Require Import base list.

Local Open Scope Z_scope.

(** ** Machine integers of the AVR target *)

Definition u8 (z : Z) : Z := z mod 256.
Definition u16 (z : Z) : Z := z mod 65536.
Definition u32 (z : Z) : Z := z mod 4294967296.
Definition s16 (z : Z) : Z := (z + 32768) mod 65536 - 32768.
Definition s32 (z : Z) : Z := (z + 2147483648) mod 4294967296 - 2147483648.

(** ** The Arduino core: [abs], [constrain] and [map]

    [Arduino.h] of the AVR core defines the first two as macros,
      #define abs(x) ((x)>0?(x):-(x))
      #define constrain(amt,low,high)
              ((amt)<(low)?(low):((amt)>(high)?(high):(amt)))
    and [map] as a function on [long]:
      return (x - in_min) * (out_max - out_min) / (in_max - in_min)
             + out_min; *)

Module Arduino.

(** [abs] expanded at type [unsigned int]: the argument is a value in
    0..65535, the test [(x)>0] is an unsigned comparison and the negation
    wraps. *)
Definition abs_uint (x : Z) : Z := if 0 <? x then x else u16 (- x).

Definition constrain (amt low high : Z) : Z :=
  if amt <? low then low else if high <? amt then high else amt.

(** C division truncates toward zero: [Z.quot]. *)
Definition map (x in_min in_max out_min out_max : Z) : Z :=
  s32 (s32 (s32 (s32 (x - in_min) * s32 (out_max - out_min))
              ÷ s32 (in_max - in_min))
       + out_min).

End Arduino.

(** ** LightChrono: a restartable elapsed-time gate

    A timer is its start instant; [millis()] is passed in as [now].
      restart()            _startTime = millis();
      elapsed()            millis() - _startTime          (unsigned long)
      hasPassed(limit)     elapsed() >= limit
      hasPassed(limit, r)  as above, and restart() when passed and r *)

Module LightChrono.

Definition restart (now : Z) : Z := now.
Definition elapsed (now startTime : Z) : Z := u32 (now - startTime).
Definition hasPassed (now startTime limit : Z) : bool :=
  limit <=? elapsed now startTime.

End LightChrono.

(** The polled sketch also calls [reset()] on its timers, which is not one
    of the operations above.  It is kept abstract: whatever it does to a
    timer, it can read the clock and the timer's start instant, and it
    leaves a start instant. *)
Class ChronoReset := LightChrono_reset : Z -> Z -> Z.

(** ** FastLED: colours, the pixel buffer and the palette *)

Record CRGB := mkCRGB { red : Z; green : Z; blue : Z }.

Definition Black : CRGB := mkCRGB 0 0 0.

(** [ColorFromPalette(pallet, index)]: the palette lookup of FastLED, kept
    abstract.  Every function that draws takes it as an implicit argument. *)
Class Palette := ColorFromPalette : Z -> CRGB.

(** [fill_solid(leds, n, color)] *)
Definition fill_solid (leds : list CRGB) (n : Z) (color : CRGB) : list CRGB :=
  replicate (Z.to_nat n) color ++ drop (Z.to_nat n) leds.

(** [leds[i] = color].  A write outside the array is undefined behaviour in
    C++; here it is an error. *)
Definition writeLed (i : Z) (color : CRGB) (leds : list CRGB)
  : option (list CRGB) :=
  if (0 <=? i) && (i <? Z.of_nat (length leds))
  then Some (<[Z.to_nat i := color]> leds)
  else None.

(** [for (uint8_t i = 0; i < n; i++) body]: the body run at i = 0, .., n-1,
    stopping at the first error.  [n] is a [uint8_t], so [i] cannot wrap. *)
Fixpoint forEach {S : Type} (body : Z -> S -> option S) (idx : list Z) (s : S)
  : option S :=
  match idx with
  | [] => Some s
  | i :: rest =>
      match body i s with
      | Some s' => forEach body rest s'
      | None => None
      end
  end.

Definition forUpTo {S : Type} (n : Z) (body : Z -> S -> option S) (s : S)
  : option S :=
  forEach body (seqZ 0 n) s.

(** The body shared by the three drawing loops:
      CRGB color = ColorFromPalette(pallet, colorIndex);
      leds[i] = color;
      leds[NUM_LEDS-1-i] = color; *)
Definition mirrorWrite {pal : Palette} (NUM_LEDS colorIndex i : Z)
    (leds : list CRGB) : option (list CRGB) :=
  let color := ColorFromPalette colorIndex in
  match writeLed i color leds with
  | Some leds1 => writeLed (NUM_LEDS - 1 - i) color leds1
  | None => None
  end.

(** What goes out on the serial line. *)
Inductive SerialOut :=
| OutText (s : string)      (* Serial.print(s) *)
| OutLine (s : string)      (* Serial.println(s) *)
| OutNumLine (n : Z).       (* Serial.println(n) *)

(** ** The callback-driven sketch *)

Module Async.

Definition NUM_LEDS : Z := 24.
Definition MIN_TRIGGER_DISTANCE : Z := 4.
Definition MAX_TRIGGER_DISTANCE : Z := 100.
Definition INACTIVITY_SECONDS : Z := 5.
Definition MIN_DISPLAY_DISTANCE : Z := 10.
Definition MAX_DISPLAY_DISTANCE : Z := 80.
Definition FAST_TRIGGER_INTERVAL : Z := 35.
Definition SLOW_TRIGGER_INTERVAL : Z := 250.

Inductive states := AWAY_STATE | PARKING_STATE | PARKED_STATE.

(** The globals of the sketch, and what it has sent to its peripherals:
    [shown] is the frame last pushed by [FastLED.show()] (none at power-on),
    [triggerInterval] the interval last given to [sonar.SetTriggerInterval]
    (none while the library's default is in force), [serial] the lines
    printed so far. *)
Record Controller := mkController {
  state : states;
  isTransitioning : bool;
  inactivityTimer : Z;
  prevDistance : Z;
  leds : list CRGB;
  shown : option (list CRGB);
  triggerInterval : option Z;
  serial : list SerialOut
}.

Definition set_state (s : states) (c : Controller) : Controller :=
  mkController s (isTransitioning c) (inactivityTimer c) (prevDistance c)
    (leds c) (shown c) (triggerInterval c) (serial c).
Definition set_isTransitioning (b : bool) (c : Controller) : Controller :=
  mkController (state c) b (inactivityTimer c) (prevDistance c)
    (leds c) (shown c) (triggerInterval c) (serial c).
Definition set_inactivityTimer (t : Z) (c : Controller) : Controller :=
  mkController (state c) (isTransitioning c) t (prevDistance c)
    (leds c) (shown c) (triggerInterval c) (serial c).
Definition set_prevDistance (d : Z) (c : Controller) : Controller :=
  mkController (state c) (isTransitioning c) (inactivityTimer c) d
    (leds c) (shown c) (triggerInterval c) (serial c).
Definition set_leds (l : list CRGB) (c : Controller) : Controller :=
  mkController (state c) (isTransitioning c) (inactivityTimer c)
    (prevDistance c) l (shown c) (triggerInterval c) (serial c).

(** [FastLED.show()] *)
Definition FastLED_show (c : Controller) : Controller :=
  mkController (state c) (isTransitioning c) (inactivityTimer c)
    (prevDistance c) (leds c) (Some (leds c)) (triggerInterval c) (serial c).
(** [sonar.SetTriggerInterval(ms)] *)
Definition SetTriggerInterval (ms : Z) (c : Controller) : Controller :=
  mkController (state c) (isTransitioning c) (inactivityTimer c)
    (prevDistance c) (leds c) (shown c) (Some ms) (serial c).
(** [Serial.println(s)] *)
Definition Serial_println (s : string) (c : Controller) : Controller :=
  mkController (state c) (isTransitioning c) (inactivityTimer c)
    (prevDistance c) (leds c) (shown c) (triggerInterval c)
    (serial c ++ [OutLine s]).

(** [state = s; isTransitioning = true;] *)
Definition transitionTo (s : states) (c : Controller) : Controller :=
  set_isTransitioning true (set_state s c).

(** The globals after [setup()].  [inactivityTimer] was constructed before
    the millisecond clock started. *)
Definition setup : Controller :=
  {| state := AWAY_STATE;
     isTransitioning := true;
     inactivityTimer := LightChrono.restart 0;
     prevDistance := 0;
     leds := fill_solid (replicate (Z.to_nat NUM_LEDS) Black) NUM_LEDS Black;
     shown := None;
     triggerInterval := None;
     serial := [OutLine ""; OutLine "Initializing...";
                OutLine ""; OutLine "Running..."] |}.

(** *** Per-state ticks *)

Definition tickAway (c : Controller) : Controller :=
  if isTransitioning c then
    SetTriggerInterval SLOW_TRIGGER_INTERVAL
      (Serial_println "AWAY" (set_isTransitioning false c))
  else c.

Definition tickParking (now : Z) (c : Controller) : Controller :=
  let c1 :=
    if isTransitioning c then
      set_inactivityTimer (LightChrono.restart now)
        (SetTriggerInterval FAST_TRIGGER_INTERVAL
           (Serial_println "PARKING" (set_isTransitioning false c)))
    else c in
  if LightChrono.hasPassed now (inactivityTimer c1) (INACTIVITY_SECONDS * 1000)
  then transitionTo PARKED_STATE c1
  else c1.

(** [FastLED.delay(100)] keeps pushing the current frame while it waits. *)
Definition tickParked (c : Controller) : Controller :=
  if isTransitioning c then
    SetTriggerInterval SLOW_TRIGGER_INTERVAL
      (FastLED_show
         (set_leds (fill_solid (leds c) NUM_LEDS Black)
            (FastLED_show
               (Serial_println "PARKED" (set_isTransitioning false c)))))
  else c.

(** *** Sonar callbacks

    [distance] is the value of
      unsigned int distance = sensor.GetFilteredMM() * .03937;
    the conversion itself is floating point and stays outside. *)

Definition awayPingReceived (distance : Z) (c : Controller) : Controller :=
  if (MIN_TRIGGER_DISTANCE <? distance) && (distance <? MAX_TRIGGER_DISTANCE)
  then transitionTo PARKING_STATE c
  else c.

(** Lines 228-229: clamp, then the number of pixels per half. All operands
    but [NUM_LEDS/2] are [unsigned int]. *)
Definition litLedsFor (distance : Z) : Z :=
  let distance :=
    Arduino.constrain distance MIN_DISPLAY_DISTANCE MAX_DISPLAY_DISTANCE in
  u8 (u16 (NUM_LEDS ÷ 2
           - u16 (u16 (NUM_LEDS ÷ 2 * u16 (distance - MIN_DISPLAY_DISTANCE))
                  ÷ u16 (MAX_DISPLAY_DISTANCE - MIN_DISPLAY_DISTANCE)))).

(** [uint8_t colorIndex = 255 * i / (NUM_LEDS/2);] in [int] arithmetic. *)
Definition colorIndex (i : Z) : Z :=
  u8 (s16 (s16 (255 * i) ÷ (NUM_LEDS ÷ 2))).

Definition drawBar {pal : Palette} (litLeds : Z) (l : list CRGB)
  : option (list CRGB) :=
  forUpTo litLeds (fun i => mirrorWrite NUM_LEDS (colorIndex i) i) l.

Definition parkingPingReceived {pal : Palette} (now distance : Z)
    (c : Controller) : option Controller :=
  if (distance <? MIN_TRIGGER_DISTANCE) || (MAX_TRIGGER_DISTANCE <? distance)
  then Some c
  else
    let c1 :=
      if 4 <? Arduino.abs_uint (u16 (distance - prevDistance c))
      then set_inactivityTimer (LightChrono.restart now)
             (set_prevDistance distance c)
      else c in
    match drawBar (litLedsFor distance) (leds c1) with
    | Some l => Some (FastLED_show (set_leds l c1))
    | None => None
    end.

Definition parkedPingReceived (distance : Z) (c : Controller) : Controller :=
  if MAX_TRIGGER_DISTANCE <? distance
  then transitionTo AWAY_STATE c
  else c.

Definition PingRecieved {pal : Palette} (now distance : Z) (c : Controller)
  : option Controller :=
  match state c with
  | PARKING_STATE => parkingPingReceived now distance c
  | PARKED_STATE => Some (parkedPingReceived distance c)
  | AWAY_STATE => Some (awayPingReceived distance c)
  end.

Definition PingTimeout (c : Controller) : Controller :=
  match state c with
  | PARKED_STATE => transitionTo AWAY_STATE (Serial_println "Timed out" c)
  | _ => c
  end.

(** *** The loop *)

Definition tick (now : Z) (c : Controller) : Controller :=
  match state c with
  | AWAY_STATE => tickAway c
  | PARKING_STATE => tickParking now c
  | PARKED_STATE => tickParked c
  end.

(** What [sonar.Update] has to deliver in one iteration: a reading (in
    inches), a timeout, or nothing. *)
Inductive SonarEvent := Reading (distance : Z) | NoEcho.

Definition Update {pal : Palette} (now : Z) (ev : option SonarEvent)
    (c : Controller) : option Controller :=
  match ev with
  | Some (Reading distance) => PingRecieved now distance c
  | Some NoEcho => Some (PingTimeout c)
  | None => Some c
  end.

Definition loop {pal : Palette} (now : Z) (ev : option SonarEvent)
    (c : Controller) : option Controller :=
  match Update now ev c with
  | Some c1 => Some (tick now c1)
  | None => None
  end.

(** Any number of iterations, each with its clock value and sonar event. *)
Fixpoint run {pal : Palette} (inputs : list (Z * option SonarEvent))
    (c : Controller) : option Controller :=
  match inputs with
  | [] => Some c
  | (now, ev) :: rest =>
      match loop now ev c with
      | Some c1 => run rest c1
      | None => None
      end
  end.

(** The loop taken apart: one callback of the sonar driver, or one tick. *)
Inductive Action :=
| Callback (now : Z) (ev : SonarEvent)
| Tick (now : Z).

Definition exec {pal : Palette} (a : Action) (c : Controller)
  : option Controller :=
  match a with
  | Callback now ev => Update now (Some ev) c
  | Tick now => Some (tick now c)
  end.

Fixpoint execAll {pal : Palette} (acts : list Action) (c : Controller)
  : option Controller :=
  match acts with
  | [] => Some c
  | a :: rest =>
      match exec a c with
      | Some c1 => execAll rest c1
      | None => None
      end
  end.

(** [steady acts c]: the state variable keeps its value through every
    action of [acts], that is, no transition fires. *)
Fixpoint steady {pal : Palette} (acts : list Action) (c : Controller) : Prop :=
  match acts with
  | [] => True
  | a :: rest =>
      match exec a c with
      | Some c1 => state c1 = state c /\ steady rest c1
      | None => True
      end
  end.

(** Is [a] a reading delivered while the controller is in [PARKING_STATE]? *)
Definition parkingReading (a : Action) (c : Controller) : bool :=
  match a, state c with
  | Callback _ (Reading _), PARKING_STATE => true
  | _, _ => false
  end.

(** [betweenReadings acts c]: no action of [acts] is a reading handled in
    [PARKING_STATE]. *)
Fixpoint betweenReadings {pal : Palette} (acts : list Action) (c : Controller)
  : bool :=
  match acts with
  | [] => true
  | a :: rest =>
      negb (parkingReading a c)
      && match exec a c with
         | Some c1 => betweenReadings rest c1
         | None => true
         end
  end.

Definition stateName (s : states) : string :=
  match s with
  | AWAY_STATE => "AWAY"
  | PARKING_STATE => "PARKING"
  | PARKED_STATE => "PARKED"
  end.

Definition stateInterval (s : states) : Z :=
  match s with
  | PARKING_STATE => FAST_TRIGGER_INTERVAL
  | _ => SLOW_TRIGGER_INTERVAL
  end.

End Async.

(** ** The polled state machine

    [readDistance()] blocks on [pulseIn], for up to a second, and returns
    centimetres, 0 when no echo came back before the timeout.  A tick takes
    the clock value [now] at which it begins, the value [reading] that
    [readDistance()] returns if this tick calls it, and the clock value
    [later] at which that call returns.  The clock moves on in the blocking
    calls only, [readDistance()] and [FastLED.delay]. *)

Module Polling.

Definition NUM_LEDS : Z := 10.
Definition FRAMES_PER_SECOND : Z := 60.
Definition SWEET_SPOT : Z := 31.
Definition INACTIVITY_SECONDS : Z := 5.
Definition MIN_DISTANCE : Z := 2.
Definition MAX_DISTANCE : Z := 400.
Definition INFREQUENT_READS_PER_SECOND : Z := 2.
Definition MAX_READS_PER_SECOND : Z := 10.

Inductive states := AWAY_STATE | PARKING_STATE | PARKED_STATE.

Record Controller := mkController {
  state : states;
  isTransitioning : bool;
  nextFrameTimer : Z;
  level : Z;
  readTimer : Z;
  inactivityTimer : Z;
  leds : list CRGB;
  shown : option (list CRGB);
  serial : list SerialOut
}.

Definition set_state (s : states) (c : Controller) : Controller :=
  mkController s (isTransitioning c) (nextFrameTimer c) (level c)
    (readTimer c) (inactivityTimer c) (leds c) (shown c) (serial c).
Definition set_isTransitioning (b : bool) (c : Controller) : Controller :=
  mkController (state c) b (nextFrameTimer c) (level c)
    (readTimer c) (inactivityTimer c) (leds c) (shown c) (serial c).
Definition set_nextFrameTimer (t : Z) (c : Controller) : Controller :=
  mkController (state c) (isTransitioning c) t (level c)
    (readTimer c) (inactivityTimer c) (leds c) (shown c) (serial c).
Definition set_level (v : Z) (c : Controller) : Controller :=
  mkController (state c) (isTransitioning c) (nextFrameTimer c) v
    (readTimer c) (inactivityTimer c) (leds c) (shown c) (serial c).
Definition set_readTimer (t : Z) (c : Controller) : Controller :=
  mkController (state c) (isTransitioning c) (nextFrameTimer c) (level c)
    t (inactivityTimer c) (leds c) (shown c) (serial c).
Definition set_inactivityTimer (t : Z) (c : Controller) : Controller :=
  mkController (state c) (isTransitioning c) (nextFrameTimer c) (level c)
    (readTimer c) t (leds c) (shown c) (serial c).
Definition set_leds (l : list CRGB) (c : Controller) : Controller :=
  mkController (state c) (isTransitioning c) (nextFrameTimer c) (level c)
    (readTimer c) (inactivityTimer c) l (shown c) (serial c).
Definition FastLED_show (c : Controller) : Controller :=
  mkController (state c) (isTransitioning c) (nextFrameTimer c) (level c)
    (readTimer c) (inactivityTimer c) (leds c) (Some (leds c)) (serial c).
Definition Serial_out (o : list SerialOut) (c : Controller) : Controller :=
  mkController (state c) (isTransitioning c) (nextFrameTimer c) (level c)
    (readTimer c) (inactivityTimer c) (leds c) (shown c) (serial c ++ o).

Definition transitionTo (s : states) (c : Controller) : Controller :=
  set_isTransitioning true (set_state s c).

Definition setup : Controller :=
  {| state := AWAY_STATE;
     isTransitioning := true;
     nextFrameTimer := LightChrono.restart 0;
     level := 0;
     readTimer := LightChrono.restart 0;
     inactivityTimer := LightChrono.restart 0;
     leds := fill_solid (replicate (Z.to_nat NUM_LEDS) Black) NUM_LEDS Black;
     shown := None;
     serial := [OutLine ""; OutLine "Initializing...";
                OutLine ""; OutLine "Running..."] |}.

(** [Serial.print("Distance: "); Serial.println(distance);] *)
Definition logDistance (distance : Z) (c : Controller) : Controller :=
  Serial_out [OutText "Distance: "; OutNumLine distance] c.

(** The assignment to [uint8_t level] in [tickParking]; [distance] is an
    [unsigned long], [map] works on [long]. *)
Definition levelFor (distance : Z) : Z :=
  if distance <=? SWEET_SPOT then 255
  else u8 (Arduino.map (s32 distance) MIN_DISTANCE MAX_DISTANCE 255 0).

(** [uint8_t litLeds = (NUM_LEDS/2) * level / 255;] *)
Definition litLedsFor (level : Z) : Z :=
  u8 (s16 (NUM_LEDS ÷ 2 * level) ÷ 255).

Definition colorIndex (i : Z) : Z :=
  u8 (s16 (s16 (255 * i) ÷ (NUM_LEDS ÷ 2))).

Definition drawBar {pal : Palette} (litLeds : Z) (l : list CRGB)
  : option (list CRGB) :=
  forUpTo litLeds (fun i => mirrorWrite NUM_LEDS (colorIndex i) i) l.

(** The timer tests before [readDistance()] see the clock at [now]; what
    follows a call of [readDistance()], the [reset()] of the inactivity timer
    and the frame-pacing test, sees it at [later]. *)
Definition tickParking {pal : Palette} {rst : ChronoReset}
    (now reading later : Z) (c : Controller) : option Controller :=
  let c1 :=
    if isTransitioning c then
      set_nextFrameTimer (LightChrono.restart now)
        (set_readTimer (LightChrono.restart now)
           (set_inactivityTimer (LightChrono.restart now)
              (Serial_out [OutLine "PARKING"] (set_isTransitioning false c))))
    else c in
  let c2 :=
    if LightChrono.hasPassed now (inactivityTimer c1)
         (INACTIVITY_SECONDS * 1000)
    then transitionTo PARKED_STATE c1
    else c1 in
  let c3 :=
    if LightChrono.hasPassed now (readTimer c2) (1000 ÷ MAX_READS_PER_SECOND)
    then
      let c2a :=
        logDistance reading (set_readTimer (LightChrono.restart now) c2) in
      if 0 <? reading
      then set_level (levelFor reading)
             (set_inactivityTimer
                (LightChrono_reset later (inactivityTimer c2a)) c2a)
      else c2a
    else c2 in
  let now3 :=
    if LightChrono.hasPassed now (readTimer c2) (1000 ÷ MAX_READS_PER_SECOND)
    then later else now in
  if LightChrono.hasPassed now3 (nextFrameTimer c3) (1000 ÷ FRAMES_PER_SECOND)
  then
    let c3a := set_nextFrameTimer (LightChrono.restart now3) c3 in
    match drawBar (litLedsFor (level c3a)) (leds c3a) with
    | Some l => Some (FastLED_show (set_leds l c3a))
    | None => None
    end
  else Some c3.

(** [FastLED.delay(1000UL / FRAMES_PER_SECOND)] pushes the current frame and
    lets that many milliseconds pass before the timers are looked at.  No
    timer is looked at once [readDistance()] has been called. *)
Definition tickParked {rst : ChronoReset} (now reading : Z) (c : Controller)
  : Controller :=
  let now1 := if isTransitioning c then u32 (now + 1000 ÷ FRAMES_PER_SECOND)
              else now in
  let c1 :=
    if isTransitioning c then
      set_readTimer (LightChrono_reset now1 (readTimer c))
        (FastLED_show
           (set_leds (fill_solid (leds c) NUM_LEDS Black)
              (FastLED_show
                 (Serial_out [OutLine "PARKED"]
                    (set_isTransitioning false c)))))
    else c in
  if LightChrono.hasPassed now1 (readTimer c1)
       (1000 ÷ INFREQUENT_READS_PER_SECOND)
  then
    let c2 := logDistance reading (set_readTimer (LightChrono.restart now1) c1) in
    if 0 <? reading then transitionTo AWAY_STATE c2 else c2
  else c1.

Definition tickAway (now reading : Z) (c : Controller) : Controller :=
  let c1 :=
    if isTransitioning c
    then Serial_out [OutLine "AWAY"] (set_isTransitioning false c)
    else c in
  if LightChrono.hasPassed now (readTimer c1)
       (1000 ÷ INFREQUENT_READS_PER_SECOND)
  then
    let c2 := logDistance reading (set_readTimer (LightChrono.restart now) c1) in
    if 0 <? reading then transitionTo PARKING_STATE c2 else c2
  else c1.

Definition loop {pal : Palette} {rst : ChronoReset}
    (now reading later : Z) (c : Controller) : option Controller :=
  match state c with
  | AWAY_STATE => Some (tickAway now reading c)
  | PARKING_STATE => tickParking now reading later c
  | PARKED_STATE => Some (tickParked now reading c)
  end.

(** Any number of iterations, each with its two clock values and its
    reading. *)
Fixpoint run {pal : Palette} {rst : ChronoReset}
    (inputs : list (Z * Z * Z)) (c : Controller) : option Controller :=
  match inputs with
  | [] => Some c
  | (now, reading, later) :: rest =>
      match loop now reading later c with
      | Some c1 => run rest c1
      | None => None
      end
  end.

End Polling.

(** ** The first sketch, [parking_helper.ino]

    No state machine: every pass of [loop()] reads the distance (in
    centimetres) and redraws the bar from scratch. *)

Module Sketch.

Definition NUM_LEDS : Z := 10.
Definition FRAMES_PER_SECOND : Z := 60.

Record Globals := mkGlobals {
  leds : list CRGB;
  shown : option (list CRGB);
  serial : list SerialOut
}.

Definition setup : Globals :=
  {| leds := fill_solid (replicate (Z.to_nat NUM_LEDS) Black) NUM_LEDS Black;
     shown := None;
     serial := [] |}.

(** [uint8_t litLeds =
       constrain(map(distance, 30, 305, 0, NUM_LEDS/2), 0, NUM_LEDS/2);] *)
Definition litLedsFor (distance : Z) : Z :=
  u8 (Arduino.constrain
        (Arduino.map (s32 distance) 30 305 0 (NUM_LEDS ÷ 2))
        0 (NUM_LEDS ÷ 2)).

(** The index handed to [ColorFromPalette(pallet, 255-255*i/(NUM_LEDS/2))],
    whose parameter is a [uint8_t]. *)
Definition colorIndex (i : Z) : Z :=
  u8 (s16 (255 - s16 (s16 (255 * i) ÷ (NUM_LEDS ÷ 2)))).

Definition drawBar {pal : Palette} (litLeds : Z) (l : list CRGB)
  : option (list CRGB) :=
  forUpTo litLeds (fun i => mirrorWrite NUM_LEDS (colorIndex i) i) l.

Definition loop {pal : Palette} (distance : Z) (g : Globals) : option Globals :=
  let litLeds := litLedsFor distance in
  let out := serial g ++ [OutText "Distance: "; OutNumLine distance;
                          OutText "Fit LEDs: "; OutNumLine litLeds] in
  match drawBar litLeds (fill_solid (leds g) NUM_LEDS Black) with
  | Some l => Some {| leds := l; shown := Some l; serial := out |}
  | None => None
  end.

Fixpoint run {pal : Palette} (distances : list Z) (g : Globals) : option Globals :=
  match distances with
  | [] => Some g
  | distance :: rest =>
      match loop distance g with
      | Some g1 => run rest g1
      | None => None
      end
  end.

End Sketch.

(** ** Auxiliary definitions for the statements *)

(** A frame of [n] pixels is mirrored when pixel [i] and pixel [n-1-i]
    always agree. *)
Definition mirrored (n : Z) (l : list CRGB) : Prop :=
  Z.of_nat (length l) = n /\
  forall i, 0 <= i < n -> l !! Z.to_nat i = l !! Z.to_nat (n - 1 - i).

(** The frame [l'] that [n] iterations of a drawing loop make of [l]: the
    [n] outermost pixels of either end carry the palette colour of their
    distance from the end, the pixels in between are untouched. *)
Definition drawn {pal : Palette} (N : Z) (position : Z -> Z) (n : Z)
    (l l' : list CRGB) : Prop :=
  Z.of_nat (length l') = N
  /\ (forall i, 0 <= i < n ->
        l' !! Z.to_nat i = Some (ColorFromPalette (position i))
        /\ l' !! Z.to_nat (N - 1 - i) = Some (ColorFromPalette (position i)))
  /\ (forall j, n <= j < N - n -> l' !! Z.to_nat j = l !! Z.to_nat j).

(** In the polled sketch a tick of [PARKED_STATE] calls [readDistance()]
    when the read timer has run for half a second.  When the entry actions
    are due, the timer that is tested has just been [reset()], after the
    [1000 / FRAMES_PER_SECOND] ms of [FastLED.delay]. *)
Definition readTaken {rst : ChronoReset} (now : Z) (c : Polling.Controller)
  : bool :=
  if Polling.isTransitioning c
  then
    let now1 := u32 (now + 1000 ÷ Polling.FRAMES_PER_SECOND) in
    LightChrono.hasPassed now1
      (LightChrono_reset now1 (Polling.readTimer c))
      (1000 ÷ Polling.INFREQUENT_READS_PER_SECOND)
  else
    LightChrono.hasPassed now (Polling.readTimer c)
      (1000 ÷ Polling.INFREQUENT_READS_PER_SECOND).

(** Modelled from the spec: [reset()] of the timer library, which the
    polled sketch calls and no file of the repository declares.  The spec
    has one such operation on a timer ("holds a start instant", "reset/
    restarted only by the owner"): the start instant becomes the clock
    value.  It stands in for [reset()] where the polled sketch is run on
    concrete inputs; the properties below hold of every [ChronoReset]. *)
Definition resetIsRestart : ChronoReset :=
  fun now _ => LightChrono.restart now.

(** A stand-in for FastLED's lookup, used where the sketches are run on
    concrete inputs. *)
Definition rampPalette : Palette := fun index => mkCRGB index (255 - index) 0.

(** * Properties *)

(** ** Machine arithmetic in range *)

Lemma u8_small z : 0 <= z < 256 -> u8 z = z.
Proof. intros; unfold u8; apply Z.mod_small; lia. Qed.

Lemma u16_small z : 0 <= z < 65536 -> u16 z = z.
Proof. intros; unfold u16; apply Z.mod_small; lia. Qed.

Lemma u32_small z : 0 <= z < 4294967296 -> u32 z = z.
Proof. intros; unfold u32; apply Z.mod_small; lia. Qed.

Lemma s16_small z : -32768 <= z < 32768 -> s16 z = z.
Proof. intros; unfold s16; rewrite Z.mod_small; lia. Qed.

Lemma s32_small z : -2147483648 <= z < 2147483648 -> s32 z = z.
Proof. intros; unfold s32; rewrite Z.mod_small; lia. Qed.

Lemma u8_range z : 0 <= u8 z < 256.
Proof. unfold u8; apply Z.mod_pos_bound; lia. Qed.

Lemma constrain_range amt low high :
  low <= high -> low <= Arduino.constrain amt low high <= high.
Proof.
  intros; unfold Arduino.constrain.
  destruct (Z.ltb_spec amt low); [lia|].
  destruct (Z.ltb_spec high amt); lia.
Qed.

Lemma constrain_mono a b low high :
  low <= high -> a <= b ->
  Arduino.constrain a low high <= Arduino.constrain b low high.
Proof.
  intros; unfold Arduino.constrain.
  destruct (Z.ltb_spec a low), (Z.ltb_spec b low); try lia;
    destruct (Z.ltb_spec high a), (Z.ltb_spec high b); lia.
Qed.

(** A timer that has just been restarted has not passed any positive limit. *)
Lemma hasPassed_fresh now limit :
  0 < limit -> LightChrono.hasPassed now (LightChrono.restart now) limit = false.
Proof.
  intros; unfold LightChrono.hasPassed, LightChrono.elapsed, LightChrono.restart.
  rewrite Z.sub_diag; unfold u32; rewrite Z.mod_0_l by lia.
  apply Z.leb_gt; lia.
Qed.

(** ** The callback-driven sketch: transitions *)

Section AsyncTransitions.

Context {pal : Palette}.

Import Async.

(** C1.  In [AWAY_STATE] a reading strictly between [MIN_TRIGGER_DISTANCE]
    and [MAX_TRIGGER_DISTANCE] moves the controller to [PARKING_STATE] (and
    it is still there at the end of that loop iteration); a reading outside
    the band, a timeout or no event at all leave the controller as it was,
    and the iteration ends in [AWAY_STATE]. *)
Theorem C1_away_trigger_band (c : Controller) (now d : Z) :
  state c = AWAY_STATE ->
  (MIN_TRIGGER_DISTANCE < d < MAX_TRIGGER_DISTANCE ->
     (exists c1, PingRecieved now d c = Some c1
                 /\ state c1 = PARKING_STATE /\ isTransitioning c1 = true)
     /\ exists c2, loop now (Some (Reading d)) c = Some c2
                   /\ state c2 = PARKING_STATE)
  /\ (~ MIN_TRIGGER_DISTANCE < d < MAX_TRIGGER_DISTANCE ->
        PingRecieved now d c = Some c
        /\ exists c2, loop now (Some (Reading d)) c = Some c2
                      /\ state c2 = AWAY_STATE)
  /\ PingTimeout c = c
  /\ (exists c2, loop now (Some NoEcho) c = Some c2 /\ state c2 = AWAY_STATE)
  /\ (exists c2, loop now None c = Some c2 /\ state c2 = AWAY_STATE).
Proof.
  intros Hs.
  assert (Htick : state (tick now c) = AWAY_STATE).
  { unfold tick; rewrite Hs; unfold tickAway.
    destruct (isTransitioning c); simpl; auto. }
  repeat split.
  - exists (transitionTo PARKING_STATE c).
    unfold PingRecieved, awayPingReceived; rewrite Hs.
    destruct (Z.ltb_spec MIN_TRIGGER_DISTANCE d); [|lia].
    destruct (Z.ltb_spec d MAX_TRIGGER_DISTANCE); [|lia].
    simpl; auto.
  - unfold loop, Update, PingRecieved, awayPingReceived; rewrite Hs.
    destruct (Z.ltb_spec MIN_TRIGGER_DISTANCE d); [|lia].
    destruct (Z.ltb_spec d MAX_TRIGGER_DISTANCE); [|lia].
    simpl. eexists; split; [reflexivity|].
    unfold tick, tickParking; simpl.
    rewrite hasPassed_fresh by (unfold INACTIVITY_SECONDS; lia).
    reflexivity.
  - unfold PingRecieved, awayPingReceived; rewrite Hs.
    destruct (Z.ltb_spec MIN_TRIGGER_DISTANCE d);
      destruct (Z.ltb_spec d MAX_TRIGGER_DISTANCE); simpl; auto; lia.
  - unfold loop, Update, PingRecieved, awayPingReceived; rewrite Hs.
    destruct (Z.ltb_spec MIN_TRIGGER_DISTANCE d);
      destruct (Z.ltb_spec d MAX_TRIGGER_DISTANCE); simpl; eauto; lia.
  - unfold PingTimeout; rewrite Hs; reflexivity.
  - unfold loop, Update, PingTimeout; rewrite Hs; eauto.
  - unfold loop, Update; eauto.
Qed.

(** C8.  In [PARKING_STATE] a reading below [MIN_TRIGGER_DISTANCE] or above
    [MAX_TRIGGER_DISTANCE] is dropped: the callback returns the controller it
    was given, so the state, [prevDistance], the inactivity timer, the pixel
    buffer, the frame on the strip and the serial output are what they
    were. *)
Theorem C8_parking_discards_out_of_band (c : Controller) (now d : Z) :
  state c = PARKING_STATE ->
  d < MIN_TRIGGER_DISTANCE \/ d > MAX_TRIGGER_DISTANCE ->
  PingRecieved now d c = Some c.
Proof.
  intros Hs Hd.
  unfold PingRecieved, parkingPingReceived; rewrite Hs.
  destruct (Z.ltb_spec d MIN_TRIGGER_DISTANCE); [reflexivity|].
  destruct (Z.ltb_spec MAX_TRIGGER_DISTANCE d); [reflexivity|].
  lia.
Qed.

End AsyncTransitions.

Lemma C1_away_trigger_band_witness :
  Async.state Async.setup = Async.AWAY_STATE
  /\ Async.MIN_TRIGGER_DISTANCE < 50 < Async.MAX_TRIGGER_DISTANCE
  /\ (exists c1, Async.PingRecieved (pal := rampPalette) 0 50 Async.setup = Some c1
                 /\ Async.state c1 = Async.PARKING_STATE
                 /\ Async.isTransitioning c1 = true)
  /\ ~ Async.MIN_TRIGGER_DISTANCE < 200 < Async.MAX_TRIGGER_DISTANCE
  /\ Async.PingRecieved (pal := rampPalette) 0 200 Async.setup
     = Some Async.setup.
Proof.
  assert (Hband : Async.MIN_TRIGGER_DISTANCE < 50 < Async.MAX_TRIGGER_DISTANCE)
    by (unfold Async.MIN_TRIGGER_DISTANCE, Async.MAX_TRIGGER_DISTANCE; lia).
  assert (Hout : ~ Async.MIN_TRIGGER_DISTANCE < 200 < Async.MAX_TRIGGER_DISTANCE)
    by (unfold Async.MIN_TRIGGER_DISTANCE, Async.MAX_TRIGGER_DISTANCE; lia).
  split; [reflexivity|].
  split; [exact Hband|].
  split.
  - exact (proj1 (proj1 (C1_away_trigger_band (pal := rampPalette)
                           Async.setup 0 50 eq_refl) Hband)).
  - split; [exact Hout|].
    exact (proj1 (proj1 (proj2 (C1_away_trigger_band (pal := rampPalette)
                                  Async.setup 0 200 eq_refl)) Hout)).
Defined.

(** ** Leaving [PARKED_STATE], in both state machines *)

(** Projections of the polled controller through its setters, without
    unfolding any arithmetic. *)
Ltac polling_fields :=
  cbn [Polling.state Polling.isTransitioning Polling.nextFrameTimer
       Polling.level Polling.readTimer Polling.inactivityTimer Polling.leds
       Polling.shown Polling.serial
       Polling.set_state Polling.set_isTransitioning Polling.set_nextFrameTimer
       Polling.set_level Polling.set_readTimer Polling.set_inactivityTimer
       Polling.set_leds Polling.FastLED_show Polling.Serial_out
       Polling.transitionTo Polling.logDistance].

Ltac split_if :=
  match goal with
  | |- context [if ?b then _ else _] => destruct b
  end; polling_fields.

Section ParkedToAway.

Context {pal : Palette} {rst : ChronoReset}.

(** With [reset()] a restart, no reading is taken while the entry actions
    are due. *)
Lemma readTaken_restart (now : Z) (c : Polling.Controller) :
  readTaken (rst := resetIsRestart) now c
  = negb (Polling.isTransitioning c)
    && LightChrono.hasPassed now (Polling.readTimer c)
         (1000 ÷ Polling.INFREQUENT_READS_PER_SECOND).
Proof.
  unfold readTaken. destruct (Polling.isTransitioning c); [|reflexivity].
  cbv zeta. unfold LightChrono_reset, resetIsRestart.
  apply hasPassed_fresh. cbv; reflexivity.
Qed.

(** C3.  From [PARKED_STATE]: in the callback-driven sketch a reading
    strictly greater than [MAX_TRIGGER_DISTANCE] moves the controller to
    [AWAY_STATE], any other reading leaves the controller as it was; in the
    polled sketch every reading that is taken and is not 0 moves it to
    [AWAY_STATE], and a reading of 0, or a tick that takes no reading,
    leaves it in [PARKED_STATE]. *)
Theorem C3_parked_to_away :
  (forall (c : Async.Controller) (now d : Z),
      Async.state c = Async.PARKED_STATE ->
      (d > Async.MAX_TRIGGER_DISTANCE ->
         (exists c1, Async.PingRecieved now d c = Some c1
                     /\ Async.state c1 = Async.AWAY_STATE
                     /\ Async.isTransitioning c1 = true)
         /\ exists c2, Async.loop now (Some (Async.Reading d)) c = Some c2
                       /\ Async.state c2 = Async.AWAY_STATE)
      /\ (~ d > Async.MAX_TRIGGER_DISTANCE ->
            Async.PingRecieved now d c = Some c
            /\ exists c2, Async.loop now (Some (Async.Reading d)) c = Some c2
                          /\ Async.state c2 = Async.PARKED_STATE))
  /\ (forall (c : Polling.Controller) (now reading later : Z),
         Polling.state c = Polling.PARKED_STATE ->
         exists c1, Polling.loop now reading later c = Some c1
           /\ (readTaken now c = true -> 0 < reading ->
                 Polling.state c1 = Polling.AWAY_STATE
                 /\ Polling.isTransitioning c1 = true)
           /\ (readTaken now c = true -> reading <= 0 ->
                 Polling.state c1 = Polling.PARKED_STATE)
           /\ (readTaken now c = false ->
                 Polling.state c1 = Polling.PARKED_STATE)).
Proof.
  split.
  - intros c now d Hs.
    assert (Hkeep : Async.state (Async.tick now c) = Async.PARKED_STATE).
    { unfold Async.tick; rewrite Hs; unfold Async.tickParked.
      destruct (Async.isTransitioning c); simpl; auto. }
    unfold Async.loop, Async.Update, Async.PingRecieved,
      Async.parkedPingReceived; rewrite Hs.
    destruct (Z.ltb_spec Async.MAX_TRIGGER_DISTANCE d); split; intros Hd;
      try lia; (split; [eauto|]); eauto.
  - intros c now reading later Hs.
    unfold Polling.loop; rewrite Hs.
    eexists; split; [reflexivity|].
    unfold readTaken, Polling.tickParked.
    destruct (Polling.isTransitioning c) eqn:Ht; cbv zeta; polling_fields;
      (destruct (LightChrono.hasPassed _ _ _) eqn:Hp;
       [destruct (Z.ltb_spec 0 reading)|]; polling_fields;
       repeat first [split | intro]; try discriminate; try lia; auto).
Qed.

End ParkedToAway.

Lemma C3_parked_to_away_witness :
  (exists c1,
      Async.PingRecieved (pal := rampPalette) 0 150
        (Async.transitionTo Async.PARKED_STATE Async.setup) = Some c1
      /\ Async.state c1 = Async.AWAY_STATE
      /\ Async.isTransitioning c1 = true)
  /\ (exists c1,
        Polling.loop (pal := rampPalette) (rst := resetIsRestart) 600 7 640
          (Polling.set_isTransitioning false
             (Polling.set_state Polling.PARKED_STATE Polling.setup)) = Some c1
        /\ Polling.state c1 = Polling.AWAY_STATE).
Proof.
  split.
  - refine (proj1 (proj1 (proj1 (C3_parked_to_away (pal := rampPalette)
                                   (rst := resetIsRestart))
                            (Async.transitionTo Async.PARKED_STATE Async.setup)
                            0 150 eq_refl) _)).
    unfold Async.MAX_TRIGGER_DISTANCE; lia.
  - destruct (proj2 (C3_parked_to_away (pal := rampPalette)
                       (rst := resetIsRestart))
                (Polling.set_isTransitioning false
                   (Polling.set_state Polling.PARKED_STATE Polling.setup))
                600 7 640 eq_refl) as (c1 & Hloop & Haway & _).
    exists c1; split; [exact Hloop|].
    apply Haway; [reflexivity | lia].
Defined.

(** ** Hysteresis in [parkingPingReceived] *)

(** The test [abs(distance-prevDistance) > 4] on [unsigned int] operands:
    for distances in the trigger band it holds when the new reading is
    farther by more than 4, and when it is closer by any amount at all. *)
Lemma hysteresis_test (d prev : Z) :
  0 <= d <= 100 -> 0 <= prev <= 100 ->
  (4 <? Arduino.abs_uint (u16 (d - prev))) = true <-> d < prev \/ prev + 4 < d.
Proof.
  intros Hd Hp. unfold Arduino.abs_uint.
  destruct (Z_lt_le_dec d prev) as [Hlt|Hge].
  - assert (Hw : u16 (d - prev) = d - prev + 65536).
    { unfold u16. symmetry. apply Z.mod_unique with (q := -1); lia. }
    rewrite Hw.
    destruct (Z.ltb_spec 0 (d - prev + 65536)); [|lia].
    rewrite Z.ltb_lt. lia.
  - rewrite u16_small by lia.
    destruct (Z.ltb_spec 0 (d - prev)).
    + rewrite Z.ltb_lt. lia.
    + replace (d - prev) with 0 by lia. simpl.
      split; [discriminate | lia].
Qed.

(** C2.  The callback-driven sketch on a reading that is closer than
    [prevDistance] by one inch.  After the three loop iterations below the
    controller is in [PARKING_STATE] with [prevDistance] = 50 and the
    inactivity timer started at 50 ms; a reading of 49 inches at 90 ms then
    overwrites [prevDistance] with 49 and restarts the timer at 90 ms,
    although the two distances differ by 1. *)
Theorem C2_closer_reading_restarts_window :
  exists c,
    Async.run (pal := rampPalette)
      [(0, None); (10, Some (Async.Reading 50)); (50, Some (Async.Reading 50))]
      Async.setup = Some c
    /\ Async.state c = Async.PARKING_STATE
    /\ Async.prevDistance c = 50
    /\ Async.inactivityTimer c = 50
    /\ Z.abs (49 - Async.prevDistance c) <= 4
    /\ exists c',
         Async.PingRecieved (pal := rampPalette) 90 49 c = Some c'
         /\ Async.prevDistance c' = 49
         /\ Async.inactivityTimer c' = 90.
Proof.
  eexists. split; [vm_compute; reflexivity|].
  repeat split; try reflexivity.
  - simpl. lia.
  - eexists. split; [vm_compute; reflexivity|].
    split; reflexivity.
Qed.

(** ** From distance to the number of lit pixels *)

Lemma Async_litLedsFor_eq (d : Z) :
  Async.litLedsFor d
  = 12 - 12 * (Arduino.constrain d 10 80 - 10) / 70.
Proof.
  unfold Async.litLedsFor.
  change (Async.NUM_LEDS ÷ 2) with 12.
  change Async.MIN_DISPLAY_DISTANCE with 10.
  change Async.MAX_DISPLAY_DISTANCE with 80.
  pose proof (constrain_range d 10 80 ltac:(lia)) as Hx.
  set (x := Arduino.constrain d 10 80) in *.
  rewrite (u16_small (x - 10)) by lia.
  rewrite (u16_small (12 * (x - 10))) by lia.
  rewrite (u16_small (80 - 10)) by lia.
  rewrite Z.quot_div_nonneg by lia.
  change (80 - 10) with 70.
  assert (0 <= 12 * (x - 10) / 70 <= 12).
  { split; [apply Z.div_pos; lia|].
    apply Z.div_le_upper_bound; lia. }
  rewrite (u16_small (12 * (x - 10) / 70)) by lia.
  rewrite u16_small by lia.
  apply u8_small; lia.
Qed.

Lemma Async_litLedsFor_range (d : Z) : 0 <= Async.litLedsFor d <= 12.
Proof.
  rewrite Async_litLedsFor_eq.
  pose proof (constrain_range d 10 80 ltac:(lia)) as Hx.
  set (x := Arduino.constrain d 10 80) in *.
  assert (0 <= 12 * (x - 10) / 70 <= 12); [|lia].
  split; [apply Z.div_pos; lia|].
  apply Z.div_le_upper_bound; lia.
Qed.

Lemma Async_litLedsFor_antitone (d1 d2 : Z) :
  d1 <= d2 -> Async.litLedsFor d2 <= Async.litLedsFor d1.
Proof.
  intros Hle. rewrite !Async_litLedsFor_eq.
  pose proof (constrain_mono d1 d2 10 80 ltac:(lia) Hle).
  assert (12 * (Arduino.constrain d1 10 80 - 10) / 70
          <= 12 * (Arduino.constrain d2 10 80 - 10) / 70); [|lia].
  apply Z.div_le_mono; lia.
Qed.

(** In [parking_helper.ino], as long as [long] does not overflow in [map]. *)
Lemma Sketch_litLedsFor_eq (d : Z) :
  0 <= d <= 429496759 ->
  Sketch.litLedsFor d = Arduino.constrain ((d - 30) * 5 ÷ 275) 0 5.
Proof.
  intros Hd. unfold Sketch.litLedsFor, Arduino.map.
  change (Sketch.NUM_LEDS ÷ 2) with 5.
  rewrite (s32_small d) by lia.
  rewrite (s32_small (d - 30)) by lia.
  rewrite (s32_small (5 - 0)) by lia.
  rewrite (s32_small (305 - 30)) by lia.
  change (5 - 0) with 5. change (305 - 30) with 275.
  rewrite (s32_small ((d - 30) * 5)) by lia.
  assert (-1 <= (d - 30) * 5 ÷ 275 <= 429496759).
  { pose proof (Z.quot_le_mono (-150) ((d - 30) * 5) 275 ltac:(lia) ltac:(lia)).
    pose proof (Z.quot_le_mono ((d - 30) * 5) (429496759 * 275) 275
                  ltac:(lia) ltac:(lia)).
    rewrite Z.quot_mul in *; try lia.
    change (-150 ÷ 275) with 0 in *. lia. }
  rewrite (s32_small ((d - 30) * 5 ÷ 275)) by lia.
  rewrite Z.add_0_r.
  rewrite (s32_small ((d - 30) * 5 ÷ 275)) by lia.
  pose proof (constrain_range ((d - 30) * 5 ÷ 275) 0 5 ltac:(lia)).
  apply u8_small; lia.
Qed.

Lemma Sketch_litLedsFor_range (d : Z) : 0 <= Sketch.litLedsFor d <= 5.
Proof.
  unfold Sketch.litLedsFor. change (Sketch.NUM_LEDS ÷ 2) with 5.
  pose proof (constrain_range
                (Arduino.map (s32 d) 30 305 0 5) 0 5 ltac:(lia)).
  rewrite u8_small; lia.
Qed.

Lemma Sketch_litLedsFor_monotone (d1 d2 : Z) :
  0 <= d1 -> d1 <= d2 -> d2 <= 429496759 ->
  Sketch.litLedsFor d1 <= Sketch.litLedsFor d2.
Proof.
  intros H0 Hle Hmax. rewrite !Sketch_litLedsFor_eq by lia.
  apply constrain_mono; [lia|].
  apply Z.quot_le_mono; lia.
Qed.

(** In the polled sketch, up to [MAX_DISTANCE]. *)
Lemma Polling_levelFor_eq (d : Z) :
  31 < d <= 400 ->
  Polling.levelFor d = 255 - (d - 2) * 255 / 398.
Proof.
  intros Hd. unfold Polling.levelFor, Arduino.map.
  change Polling.SWEET_SPOT with 31.
  change Polling.MIN_DISTANCE with 2.
  change Polling.MAX_DISTANCE with 400.
  destruct (Z.leb_spec d 31); [lia|].
  rewrite (s32_small d) by lia.
  rewrite (s32_small (d - 2)) by lia.
  rewrite (s32_small (0 - 255)) by lia.
  rewrite (s32_small (400 - 2)) by lia.
  change (0 - 255) with (- (255)). change (400 - 2) with 398.
  rewrite (s32_small ((d - 2) * - (255))) by lia.
  replace ((d - 2) * - (255)) with (- ((d - 2) * 255)) by lia.
  rewrite Z.quot_opp_l by lia.
  rewrite Z.quot_div_nonneg by lia.
  assert (0 <= (d - 2) * 255 / 398 <= 255).
  { split; [apply Z.div_pos; lia|].
    apply Z.div_le_upper_bound; lia. }
  rewrite (s32_small (- ((d - 2) * 255 / 398))) by lia.
  rewrite s32_small by lia.
  rewrite u8_small by lia. lia.
Qed.

Lemma Polling_levelFor_range (d : Z) : 0 <= Polling.levelFor d <= 255.
Proof.
  unfold Polling.levelFor.
  destruct (d <=? Polling.SWEET_SPOT); [lia|].
  pose proof (u8_range
    (Arduino.map (s32 d) Polling.MIN_DISTANCE Polling.MAX_DISTANCE 255 0)).
  lia.
Qed.

Lemma Polling_levelFor_antitone (d1 d2 : Z) :
  d1 <= d2 -> d2 <= Polling.MAX_DISTANCE ->
  Polling.levelFor d2 <= Polling.levelFor d1.
Proof.
  change Polling.MAX_DISTANCE with 400. intros Hle Hmax.
  destruct (Z_le_gt_dec d1 31) as [H1|H1].
  - replace (Polling.levelFor d1) with 255.
    + apply Polling_levelFor_range.
    + unfold Polling.levelFor. change Polling.SWEET_SPOT with 31.
      destruct (Z.leb_spec d1 31); [reflexivity|lia].
  - rewrite !Polling_levelFor_eq by lia.
    assert ((d1 - 2) * 255 / 398 <= (d2 - 2) * 255 / 398); [|lia].
    apply Z.div_le_mono; lia.
Qed.

Lemma Polling_litLedsFor_eq (level : Z) :
  0 <= level <= 255 -> Polling.litLedsFor level = 5 * level / 255.
Proof.
  intros Hl. unfold Polling.litLedsFor.
  change (Polling.NUM_LEDS ÷ 2) with 5.
  rewrite s16_small by lia.
  rewrite Z.quot_div_nonneg by lia.
  assert (0 <= 5 * level / 255 <= 5).
  { split; [apply Z.div_pos; lia|].
    apply Z.div_le_upper_bound; lia. }
  apply u8_small; lia.
Qed.

Lemma Polling_litLedsFor_range (level : Z) :
  0 <= level <= 255 -> 0 <= Polling.litLedsFor level <= 5.
Proof.
  intros Hl. rewrite Polling_litLedsFor_eq by lia.
  split; [apply Z.div_pos; lia|].
  apply Z.div_le_upper_bound; lia.
Qed.

Lemma Polling_litLedsFor_monotone (l1 l2 : Z) :
  0 <= l1 -> l1 <= l2 -> l2 <= 255 ->
  Polling.litLedsFor l1 <= Polling.litLedsFor l2.
Proof.
  intros. rewrite !Polling_litLedsFor_eq by lia.
  apply Z.div_le_mono; lia.
Qed.

(** ** The drawing loop *)

Lemma forEach_app {S : Type} (body : Z -> S -> option S) (xs ys : list Z) (s : S) :
  forEach body (xs ++ ys) s
  = match forEach body xs s with
    | Some s' => forEach body ys s'
    | None => None
    end.
Proof.
  revert s; induction xs as [|x xs IH]; intros s; simpl; [reflexivity|].
  destruct (body x s); [apply IH | reflexivity].
Qed.

(** One more iteration of the loop is the body run after the shorter loop. *)
Lemma forUpTo_succ {S : Type} (n : Z) (body : Z -> S -> option S) (s : S) :
  0 <= n ->
  forUpTo (n + 1) body s
  = match forUpTo n body s with
    | Some s' => body n s'
    | None => None
    end.
Proof.
  intros Hn. unfold forUpTo.
  rewrite seqZ_app by lia. rewrite forEach_app.
  destruct (forEach body (seqZ 0 n) s); [|reflexivity].
  replace (seqZ (0 + n) 1) with [n]
    by (unfold seqZ; simpl; f_equal; lia).
  simpl. destruct (body n s0); reflexivity.
Qed.

Lemma forUpTo_zero {S : Type} (body : Z -> S -> option S) (s : S) :
  forUpTo 0 body s = Some s.
Proof. reflexivity. Qed.

Lemma writeLed_inside (i : Z) (color : CRGB) (l : list CRGB) :
  0 <= i < Z.of_nat (length l) ->
  writeLed i color l = Some (<[Z.to_nat i := color]> l).
Proof.
  intros Hi. unfold writeLed.
  destruct (Z.leb_spec 0 i); [|lia].
  destruct (Z.ltb_spec i (Z.of_nat (length l))); [reflexivity|lia].
Qed.

Lemma writeLed_outside (i : Z) (color : CRGB) (l : list CRGB) :
  ~ 0 <= i < Z.of_nat (length l) -> writeLed i color l = None.
Proof.
  intros Hi. unfold writeLed.
  destruct (Z.leb_spec 0 i); [|reflexivity].
  destruct (Z.ltb_spec i (Z.of_nat (length l))); [lia|reflexivity].
Qed.

Section DrawingLoop.

Context {pal : Palette}.
Variable N : Z.
Variable position : Z -> Z.

Let body := fun i => mirrorWrite N (position i) i.

Lemma mirrorWrite_inside (i : Z) (l : list CRGB) :
  Z.of_nat (length l) = N -> 0 <= i < N ->
  mirrorWrite N (position i) i l
  = Some (<[Z.to_nat (N - 1 - i) := ColorFromPalette (position i)]>
            (<[Z.to_nat i := ColorFromPalette (position i)]> l)).
Proof.
  intros Hlen Hi. unfold mirrorWrite.
  rewrite writeLed_inside by lia.
  apply writeLed_inside. rewrite length_insert. lia.
Qed.

Lemma forUpTo_drawn (l : list CRGB) (k : nat) :
  Z.of_nat (length l) = N -> 2 * Z.of_nat k <= N ->
  exists l', forUpTo (Z.of_nat k) body l = Some l'
              /\ drawn N position (Z.of_nat k) l l'.
Proof.
  intros Hlen. induction k as [|k IH]; intros Hk.
  - exists l. split; [reflexivity|].
    split; [assumption|]. split; [intros; lia | reflexivity].
  - destruct IH as (l1 & Hrun & Hlen1 & Hlit & Hmid); [lia|].
    replace (Z.of_nat (S k)) with (Z.of_nat k + 1) by lia.
    rewrite forUpTo_succ by lia. rewrite Hrun. unfold body at 1.
    rewrite mirrorWrite_inside by lia.
    eexists. split; [reflexivity|].
    set (n := Z.of_nat k) in *.
    set (color := ColorFromPalette (position n)).
    split; [rewrite !length_insert; assumption|].
    split.
    + intros i Hi.
      destruct (Z.eq_dec i n) as [->|Hne].
      * split.
        -- rewrite list_lookup_insert_ne by lia.
           apply list_lookup_insert_eq. lia.
        -- apply list_lookup_insert_eq. rewrite length_insert. lia.
      * rewrite !list_lookup_insert_ne by lia.
        apply Hlit. lia.
    + intros j Hj.
      rewrite !list_lookup_insert_ne by lia.
      apply Hmid. lia.
Qed.

Lemma drawn_mirrored (n : Z) (l l' : list CRGB) :
  0 <= n -> 2 * n <= N ->
  mirrored N l -> drawn N position n l l' -> mirrored N l'.
Proof.
  intros Hn0 Hn [Hlen Hsym] (Hlen' & Hlit & Hmid).
  split; [assumption|]. intros j Hj.
  destruct (Z_lt_le_dec j n) as [Hlow|Hge].
  - destruct (Hlit j ltac:(lia)) as [-> ->]. reflexivity.
  - destruct (Z_lt_le_dec j (N - n)) as [Hin|Hhigh].
    + rewrite !Hmid by lia. apply Hsym. lia.
    + destruct (Hlit (N - 1 - j) ltac:(lia)) as [Ha Hb].
      replace (N - 1 - (N - 1 - j)) with j in Hb by lia.
      rewrite Ha, Hb. reflexivity.
Qed.

End DrawingLoop.

(** ** Palette positions *)

Lemma Async_colorIndex_eq (i : Z) :
  0 <= i < 12 -> Async.colorIndex i = 255 * i / 12.
Proof.
  intros Hi. unfold Async.colorIndex. change (Async.NUM_LEDS ÷ 2) with 12.
  rewrite (s16_small (255 * i)) by lia.
  rewrite Z.quot_div_nonneg by lia.
  assert (0 <= 255 * i / 12 < 256).
  { split; [apply Z.div_pos; lia|].
    apply Z.div_lt_upper_bound; lia. }
  rewrite s16_small by lia. apply u8_small; lia.
Qed.

Lemma Polling_colorIndex_eq (i : Z) :
  0 <= i < 5 -> Polling.colorIndex i = 255 * i / 5.
Proof.
  intros Hi. unfold Polling.colorIndex. change (Polling.NUM_LEDS ÷ 2) with 5.
  rewrite (s16_small (255 * i)) by lia.
  rewrite Z.quot_div_nonneg by lia.
  assert (0 <= 255 * i / 5 < 256).
  { split; [apply Z.div_pos; lia|].
    apply Z.div_lt_upper_bound; lia. }
  rewrite s16_small by lia. apply u8_small; lia.
Qed.

Lemma Sketch_colorIndex_eq (i : Z) :
  0 <= i < 5 -> Sketch.colorIndex i = 255 - 255 * i / 5.
Proof.
  intros Hi. unfold Sketch.colorIndex. change (Sketch.NUM_LEDS ÷ 2) with 5.
  rewrite (s16_small (255 * i)) by lia.
  rewrite Z.quot_div_nonneg by lia.
  assert (0 <= 255 * i / 5 < 256).
  { split; [apply Z.div_pos; lia|].
    apply Z.div_lt_upper_bound; lia. }
  rewrite (s16_small (255 * i / 5)) by lia.
  rewrite s16_small by lia. apply u8_small; lia.
Qed.

(** ** The three bars *)

Section Bars.

Context {pal : Palette}.

Lemma Async_drawBar_drawn (n : Z) (l : list CRGB) :
  Z.of_nat (length l) = Async.NUM_LEDS -> 0 <= n <= 12 ->
  exists l', Async.drawBar n l = Some l'
             /\ drawn Async.NUM_LEDS Async.colorIndex n l l'.
Proof.
  intros Hlen Hn.
  destruct (forUpTo_drawn Async.NUM_LEDS Async.colorIndex l (Z.to_nat n) Hlen)
    as (l' & Hrun & Hd).
  - change Async.NUM_LEDS with 24. lia.
  - rewrite Z2Nat.id in * by lia. exists l'. split; assumption.
Qed.

Lemma Polling_drawBar_drawn (n : Z) (l : list CRGB) :
  Z.of_nat (length l) = Polling.NUM_LEDS -> 0 <= n <= 5 ->
  exists l', Polling.drawBar n l = Some l'
             /\ drawn Polling.NUM_LEDS Polling.colorIndex n l l'.
Proof.
  intros Hlen Hn.
  destruct (forUpTo_drawn Polling.NUM_LEDS Polling.colorIndex l (Z.to_nat n) Hlen)
    as (l' & Hrun & Hd).
  - change Polling.NUM_LEDS with 10. lia.
  - rewrite Z2Nat.id in * by lia. exists l'. split; assumption.
Qed.

Lemma Sketch_drawBar_drawn (n : Z) (l : list CRGB) :
  Z.of_nat (length l) = Sketch.NUM_LEDS -> 0 <= n <= 5 ->
  exists l', Sketch.drawBar n l = Some l'
             /\ drawn Sketch.NUM_LEDS Sketch.colorIndex n l l'.
Proof.
  intros Hlen Hn.
  destruct (forUpTo_drawn Sketch.NUM_LEDS Sketch.colorIndex l (Z.to_nat n) Hlen)
    as (l' & Hrun & Hd).
  - change Sketch.NUM_LEDS with 10. lia.
  - rewrite Z2Nat.id in * by lia. exists l'. split; assumption.
Qed.

End Bars.

(** ** Blanking *)

Lemma fill_solid_full (l : list CRGB) (n : Z) (color : CRGB) :
  Z.of_nat (length l) = n ->
  fill_solid l n color = replicate (Z.to_nat n) color.
Proof.
  intros Hlen. unfold fill_solid.
  rewrite drop_ge by lia. apply app_nil_r.
Qed.

Lemma replicate_mirrored (n : Z) (color : CRGB) :
  0 <= n -> mirrored n (replicate (Z.to_nat n) color).
Proof.
  intros Hn. split.
  - rewrite length_replicate. lia.
  - intros i Hi. rewrite !lookup_replicate_2 by lia. reflexivity.
Qed.

Lemma fill_solid_mirrored (l : list CRGB) (n : Z) (color : CRGB) :
  Z.of_nat (length l) = n -> mirrored n (fill_solid l n color).
Proof.
  intros Hlen. rewrite fill_solid_full by assumption.
  apply replicate_mirrored. lia.
Qed.

(** ** C4: direction of the distance-to-pixels map *)

(** C4, as the code has it.  In the callback-driven sketch a closer obstacle
    never lights fewer pixels; in the polled sketch the same holds for the
    level and for the pixel count of distances up to [MAX_DISTANCE]; in
    [parking_helper.ino] the map runs the other way, a farther obstacle
    never lights fewer pixels (for every distance whose scaling fits a
    [long], which covers all that [readDistance()] can return). *)
Theorem C4_lit_count_monotone :
  (forall d1 d2 : Z,
      d1 <= d2 -> Async.litLedsFor d1 >= Async.litLedsFor d2)
  /\ (forall d1 d2 : Z,
         d1 <= d2 -> d2 <= Polling.MAX_DISTANCE ->
         Polling.levelFor d1 >= Polling.levelFor d2
         /\ Polling.litLedsFor (Polling.levelFor d1)
            >= Polling.litLedsFor (Polling.levelFor d2))
  /\ (forall d1 d2 : Z,
         0 <= d1 -> d1 <= d2 -> d2 <= 429496759 ->
         Sketch.litLedsFor d1 <= Sketch.litLedsFor d2).
Proof.
  split; [|split].
  - intros d1 d2 Hle. apply Z.le_ge. apply Async_litLedsFor_antitone; assumption.
  - intros d1 d2 Hle Hmax.
    pose proof (Polling_levelFor_antitone d1 d2 Hle Hmax).
    pose proof (Polling_levelFor_range d1).
    pose proof (Polling_levelFor_range d2).
    split; [lia|]. apply Z.le_ge.
    apply Polling_litLedsFor_monotone; lia.
  - intros d1 d2 H0 Hle Hmax. apply Sketch_litLedsFor_monotone; assumption.
Qed.

Lemma C4_lit_count_monotone_witness :
  Async.litLedsFor 20 >= Async.litLedsFor 60
  /\ Polling.litLedsFor (Polling.levelFor 40)
     >= Polling.litLedsFor (Polling.levelFor 300)
  /\ Sketch.litLedsFor 100 <= Sketch.litLedsFor 200.
Proof.
  split; [|split].
  - apply (proj1 C4_lit_count_monotone 20 60). lia.
  - apply (proj1 (proj2 C4_lit_count_monotone) 40 300);
      [lia | unfold Polling.MAX_DISTANCE; lia].
  - apply (proj2 (proj2 C4_lit_count_monotone) 100 200); lia.
Defined.

(** In [parking_helper.ino] the closer of two obstacles lights fewer pixels:
    none at 30 cm, all five of each half at 305 cm. *)
Lemma C4_sketch_closer_lights_fewer :
  30 <= 305
  /\ Sketch.litLedsFor 30 = 0
  /\ Sketch.litLedsFor 305 = 5
  /\ ~ Sketch.litLedsFor 30 >= Sketch.litLedsFor 305.
Proof.
  split; [lia|].
  split; [reflexivity|].
  split; [reflexivity|].
  vm_compute. intros Hge. apply Hge. reflexivity.
Qed.

(** ** C5: the pixel count and the array bounds *)

Section Bounds.

Context {pal : Palette}.

(** C5.  For every distance (every level in 0..255 in the polled sketch)
    the pixel count is at most [NUM_LEDS/2]; so both indices written by
    each iteration of the drawing loop lie in 0..[NUM_LEDS]-1, and the loop
    runs to its end on a buffer of [NUM_LEDS] pixels. *)
Theorem C5_lit_count_within_half :
  (forall (d : Z) (l : list CRGB),
      Z.of_nat (length l) = Async.NUM_LEDS ->
      0 <= Async.litLedsFor d <= Async.NUM_LEDS ÷ 2
      /\ (forall i, 0 <= i < Async.litLedsFor d ->
            0 <= i < Async.NUM_LEDS
            /\ 0 <= Async.NUM_LEDS - 1 - i < Async.NUM_LEDS)
      /\ is_Some (Async.drawBar (Async.litLedsFor d) l))
  /\ (forall (level : Z) (l : list CRGB),
         0 <= level <= 255 ->
         Z.of_nat (length l) = Polling.NUM_LEDS ->
         0 <= Polling.litLedsFor level <= Polling.NUM_LEDS ÷ 2
         /\ (forall i, 0 <= i < Polling.litLedsFor level ->
               0 <= i < Polling.NUM_LEDS
               /\ 0 <= Polling.NUM_LEDS - 1 - i < Polling.NUM_LEDS)
         /\ is_Some (Polling.drawBar (Polling.litLedsFor level) l))
  /\ (forall (d : Z) (l : list CRGB),
         Z.of_nat (length l) = Sketch.NUM_LEDS ->
         0 <= Sketch.litLedsFor d <= Sketch.NUM_LEDS ÷ 2
         /\ (forall i, 0 <= i < Sketch.litLedsFor d ->
               0 <= i < Sketch.NUM_LEDS
               /\ 0 <= Sketch.NUM_LEDS - 1 - i < Sketch.NUM_LEDS)
         /\ is_Some (Sketch.drawBar (Sketch.litLedsFor d) l)).
Proof.
  split; [|split].
  - intros d l Hlen. pose proof (Async_litLedsFor_range d) as Hr.
    change (Async.NUM_LEDS ÷ 2) with 12.
    split; [assumption|]. split.
    + intros i Hi. change Async.NUM_LEDS with 24. lia.
    + destruct (Async_drawBar_drawn (Async.litLedsFor d) l Hlen Hr)
        as (l' & -> & _). eexists; reflexivity.
  - intros level l Hlev Hlen.
    pose proof (Polling_litLedsFor_range level Hlev) as Hr.
    change (Polling.NUM_LEDS ÷ 2) with 5.
    split; [assumption|]. split.
    + intros i Hi. change Polling.NUM_LEDS with 10. lia.
    + destruct (Polling_drawBar_drawn (Polling.litLedsFor level) l Hlen Hr)
        as (l' & -> & _). eexists; reflexivity.
  - intros d l Hlen. pose proof (Sketch_litLedsFor_range d) as Hr.
    change (Sketch.NUM_LEDS ÷ 2) with 5.
    split; [assumption|]. split.
    + intros i Hi. change Sketch.NUM_LEDS with 10. lia.
    + destruct (Sketch_drawBar_drawn (Sketch.litLedsFor d) l Hlen Hr)
        as (l' & -> & _). eexists; reflexivity.
Qed.

End Bounds.

Lemma C5_lit_count_within_half_witness :
  (0 <= Async.litLedsFor 3 <= Async.NUM_LEDS ÷ 2
   /\ is_Some (Async.drawBar (pal := rampPalette) (Async.litLedsFor 3)
                 (Async.leds Async.setup)))
  /\ (0 <= Polling.litLedsFor 255 <= Polling.NUM_LEDS ÷ 2
      /\ is_Some (Polling.drawBar (pal := rampPalette) (Polling.litLedsFor 255)
                    (Polling.leds Polling.setup)))
  /\ (0 <= Sketch.litLedsFor 1000 <= Sketch.NUM_LEDS ÷ 2
      /\ is_Some (Sketch.drawBar (pal := rampPalette) (Sketch.litLedsFor 1000)
                    (Sketch.leds Sketch.setup))).
Proof.
  split; [|split].
  - destruct (proj1 (C5_lit_count_within_half (pal := rampPalette))
                3 (Async.leds Async.setup) eq_refl) as (Hr & _ & Hs).
    split; assumption.
  - destruct (proj1 (proj2 (C5_lit_count_within_half (pal := rampPalette)))
                255 (Polling.leds Polling.setup) ltac:(lia) eq_refl)
      as (Hr & _ & Hs).
    split; assumption.
  - destruct (proj2 (proj2 (C5_lit_count_within_half (pal := rampPalette)))
                1000 (Sketch.leds Sketch.setup) eq_refl) as (Hr & _ & Hs).
    split; assumption.
Defined.

(** ** C9: palette positions along the bar *)

Section Gradient.

Context {pal : Palette}.

(** C9, as the code has it.  In both state machines a bar of [n] pixels per
    half gives pixel [i] and pixel [NUM_LEDS-1-i], for every [i] below [n],
    the palette colour at position [255 * i / (NUM_LEDS/2)], a position
    that does not decrease with [i]; in [parking_helper.ino] the position is
    [255 - 255 * i / (NUM_LEDS/2)], which does not increase with [i]. *)
Theorem C9_palette_position :
  (forall (n : Z) (l : list CRGB),
      Z.of_nat (length l) = Async.NUM_LEDS ->
      0 <= n <= Async.NUM_LEDS / 2 ->
      exists l', Async.drawBar n l = Some l'
        /\ (forall i, 0 <= i < n ->
              l' !! Z.to_nat i
              = Some (ColorFromPalette (255 * i / (Async.NUM_LEDS / 2)))
              /\ l' !! Z.to_nat (Async.NUM_LEDS - 1 - i)
                 = Some (ColorFromPalette (255 * i / (Async.NUM_LEDS / 2))))
        /\ (forall i j, 0 <= i -> i <= j -> j < n ->
              Async.colorIndex i <= Async.colorIndex j))
  /\ (forall (n : Z) (l : list CRGB),
         Z.of_nat (length l) = Polling.NUM_LEDS ->
         0 <= n <= Polling.NUM_LEDS / 2 ->
         exists l', Polling.drawBar n l = Some l'
           /\ (forall i, 0 <= i < n ->
                 l' !! Z.to_nat i
                 = Some (ColorFromPalette (255 * i / (Polling.NUM_LEDS / 2)))
                 /\ l' !! Z.to_nat (Polling.NUM_LEDS - 1 - i)
                    = Some (ColorFromPalette
                              (255 * i / (Polling.NUM_LEDS / 2))))
           /\ (forall i j, 0 <= i -> i <= j -> j < n ->
                 Polling.colorIndex i <= Polling.colorIndex j))
  /\ (forall (n : Z) (l : list CRGB),
         Z.of_nat (length l) = Sketch.NUM_LEDS ->
         0 <= n <= Sketch.NUM_LEDS / 2 ->
         exists l', Sketch.drawBar n l = Some l'
           /\ (forall i, 0 <= i < n ->
                 l' !! Z.to_nat i
                 = Some (ColorFromPalette
                           (255 - 255 * i / (Sketch.NUM_LEDS / 2)))
                 /\ l' !! Z.to_nat (Sketch.NUM_LEDS - 1 - i)
                    = Some (ColorFromPalette
                              (255 - 255 * i / (Sketch.NUM_LEDS / 2))))
           /\ (forall i j, 0 <= i -> i <= j -> j < n ->
                 Sketch.colorIndex j <= Sketch.colorIndex i)).
Proof.
  split; [|split].
  - intros n l Hlen Hn. change (Async.NUM_LEDS / 2) with 12 in *.
    destruct (Async_drawBar_drawn n l Hlen Hn) as (l' & Hrun & _ & Hlit & _).
    exists l'. split; [assumption|]. split.
    + intros i Hi. rewrite <- Async_colorIndex_eq by lia. apply Hlit; lia.
    + intros i j Hi Hij Hj. rewrite !Async_colorIndex_eq by lia.
      apply Z.div_le_mono; lia.
  - intros n l Hlen Hn. change (Polling.NUM_LEDS / 2) with 5 in *.
    destruct (Polling_drawBar_drawn n l Hlen Hn) as (l' & Hrun & _ & Hlit & _).
    exists l'. split; [assumption|]. split.
    + intros i Hi. rewrite <- Polling_colorIndex_eq by lia. apply Hlit; lia.
    + intros i j Hi Hij Hj. rewrite !Polling_colorIndex_eq by lia.
      apply Z.div_le_mono; lia.
  - intros n l Hlen Hn. change (Sketch.NUM_LEDS / 2) with 5 in *.
    destruct (Sketch_drawBar_drawn n l Hlen Hn) as (l' & Hrun & _ & Hlit & _).
    exists l'. split; [assumption|]. split.
    + intros i Hi. rewrite <- Sketch_colorIndex_eq by lia. apply Hlit; lia.
    + intros i j Hi Hij Hj. rewrite !Sketch_colorIndex_eq by lia.
      assert (255 * i / 5 <= 255 * j / 5); [|lia].
      apply Z.div_le_mono; lia.
Qed.

End Gradient.

Lemma C9_palette_position_witness :
  (exists l', Async.drawBar (pal := rampPalette) 6 (Async.leds Async.setup)
              = Some l'
     /\ l' !! Z.to_nat 5 = Some (rampPalette (255 * 5 / (Async.NUM_LEDS / 2)))
     /\ l' !! Z.to_nat (Async.NUM_LEDS - 1 - 5)
        = Some (rampPalette (255 * 5 / (Async.NUM_LEDS / 2))))
  /\ (exists l', Sketch.drawBar (pal := rampPalette) 5 (Sketch.leds Sketch.setup)
                 = Some l'
        /\ l' !! Z.to_nat 4
           = Some (rampPalette (255 - 255 * 4 / (Sketch.NUM_LEDS / 2)))).
Proof.
  split.
  - destruct (proj1 (C9_palette_position (pal := rampPalette))
                6 (Async.leds Async.setup) eq_refl)
      as (l' & Hrun & Hlit & _).
    { change (Async.NUM_LEDS / 2) with 12. lia. }
    exists l'. split; [exact Hrun|]. apply (Hlit 5). lia.
  - destruct (proj2 (proj2 (C9_palette_position (pal := rampPalette)))
                5 (Sketch.leds Sketch.setup) eq_refl)
      as (l' & Hrun & Hlit & _).
    { change (Sketch.NUM_LEDS / 2) with 5. lia. }
    exists l'. split; [exact Hrun|]. apply (Hlit 4). lia.
Defined.

(** [parking_helper.ino] at 305 cm lights five pixels per half; the
    outermost one is drawn at palette position 255, not at
    [255 * 0 / (NUM_LEDS/2)] = 0, and the position falls from pixel 0 to
    pixel 1. *)
Lemma C9_sketch_gradient_runs_backwards :
  exists g,
    Sketch.loop (pal := rampPalette) 305 Sketch.setup = Some g
    /\ 0 < Sketch.litLedsFor 305
    /\ Sketch.leds g !! Z.to_nat 0 = Some (rampPalette 255)
    /\ rampPalette 255 <> rampPalette (255 * 0 / (Sketch.NUM_LEDS / 2))
    /\ Sketch.colorIndex 0 <> 255 * 0 / (Sketch.NUM_LEDS / 2)
    /\ ~ Sketch.colorIndex 0 <= Sketch.colorIndex 1.
Proof.
  eexists. split; [vm_compute; reflexivity|].
  split; [reflexivity|].
  split; [reflexivity|].
  split; [discriminate|].
  split; [discriminate|].
  vm_compute. intros Hle. apply Hle. reflexivity.
Qed.

(** ** C6: the frame stays mirrored *)

Section Mirror.

Context {pal : Palette} {rst : ChronoReset}.

Lemma Async_setup_mirrored : mirrored Async.NUM_LEDS (Async.leds Async.setup).
Proof. apply fill_solid_mirrored. reflexivity. Qed.

Lemma Async_tick_mirrored (now : Z) (c : Async.Controller) :
  mirrored Async.NUM_LEDS (Async.leds c) ->
  mirrored Async.NUM_LEDS (Async.leds (Async.tick now c)).
Proof.
  intros Hm. unfold Async.tick.
  destruct (Async.state c).
  - unfold Async.tickAway. destruct (Async.isTransitioning c); assumption.
  - unfold Async.tickParking.
    destruct (Async.isTransitioning c); simpl;
      match goal with |- context [LightChrono.hasPassed ?a ?b ?l] =>
        destruct (LightChrono.hasPassed a b l) end; assumption.
  - unfold Async.tickParked. destruct (Async.isTransitioning c); [|assumption].
    simpl. apply fill_solid_mirrored. apply Hm.
Qed.

Lemma Async_parkingPing_mirrored (now d : Z) (c : Async.Controller) :
  mirrored Async.NUM_LEDS (Async.leds c) ->
  exists c', Async.parkingPingReceived now d c = Some c'
             /\ mirrored Async.NUM_LEDS (Async.leds c')
             /\ Async.state c' = Async.state c
             /\ Async.isTransitioning c' = Async.isTransitioning c
             /\ Async.serial c' = Async.serial c
             /\ Async.triggerInterval c' = Async.triggerInterval c.
Proof.
  intros Hm. unfold Async.parkingPingReceived.
  destruct (_ || _); [exists c; auto 10|].
  pose proof (Async_litLedsFor_range d) as Hr.
  assert (Hdraw : forall l, l = Async.leds c ->
            exists l', Async.drawBar (Async.litLedsFor d) l = Some l'
                       /\ mirrored Async.NUM_LEDS l').
  { intros l ->.
    destruct (Async_drawBar_drawn (Async.litLedsFor d) (Async.leds c)
                (proj1 Hm) Hr) as (l' & Hrun & Hd).
    exists l'. split; [assumption|].
    apply (drawn_mirrored Async.NUM_LEDS Async.colorIndex
             (Async.litLedsFor d) (Async.leds c));
      [lia | change Async.NUM_LEDS with 24; lia | assumption | assumption]. }
  destruct (4 <? _); simpl;
    (destruct (Hdraw (Async.leds c) eq_refl) as (l' & -> & Hm');
     eexists; split; [reflexivity|]; simpl; auto 10).
Qed.

Lemma Async_Update_mirrored (now : Z) (ev : option Async.SonarEvent)
    (c : Async.Controller) :
  mirrored Async.NUM_LEDS (Async.leds c) ->
  exists c', Async.Update now ev c = Some c'
             /\ mirrored Async.NUM_LEDS (Async.leds c').
Proof.
  intros Hm. destruct ev as [[d|]|]; simpl.
  - unfold Async.PingRecieved. destruct (Async.state c).
    + eexists; split; [reflexivity|].
      unfold Async.awayPingReceived; destruct (_ && _); assumption.
    + destruct (Async_parkingPing_mirrored now d c Hm) as (c' & Hc & Hm' & _).
      eauto.
    + eexists; split; [reflexivity|].
      unfold Async.parkedPingReceived; destruct (_ <? _); assumption.
  - eexists; split; [reflexivity|].
    unfold Async.PingTimeout; destruct (Async.state c); assumption.
  - eauto.
Qed.

Lemma Async_execAll_mirrored (acts : list Async.Action) (c : Async.Controller) :
  mirrored Async.NUM_LEDS (Async.leds c) ->
  exists c', Async.execAll acts c = Some c'
             /\ mirrored Async.NUM_LEDS (Async.leds c').
Proof.
  revert c; induction acts as [|a acts IH]; intros c Hm; simpl; [eauto|].
  destruct a as [now ev|now]; simpl.
  - destruct (Async_Update_mirrored now (Some ev) c Hm) as (c1 & Hc & Hm1).
    simpl in Hc. rewrite Hc. apply IH; assumption.
  - apply IH. apply Async_tick_mirrored; assumption.
Qed.

Lemma Async_run_mirrored (inputs : list (Z * option Async.SonarEvent))
    (c : Async.Controller) :
  mirrored Async.NUM_LEDS (Async.leds c) ->
  exists c', Async.run inputs c = Some c'
             /\ mirrored Async.NUM_LEDS (Async.leds c').
Proof.
  revert c; induction inputs as [|[now ev] inputs IH]; intros c Hm; simpl;
    [eauto|].
  unfold Async.loop.
  destruct (Async_Update_mirrored now ev c Hm) as (c1 & -> & Hm1).
  apply IH. apply Async_tick_mirrored; assumption.
Qed.

(** The polled sketch keeps, besides the mirrored frame, [level] within a
    [uint8_t]. *)
Lemma Polling_setup_mirrored :
  mirrored Polling.NUM_LEDS (Polling.leds Polling.setup)
  /\ 0 <= Polling.level Polling.setup <= 255.
Proof.
  split; [apply fill_solid_mirrored; reflexivity | simpl; lia].
Qed.

Lemma Polling_draw_mirrored (level : Z) (l : list CRGB) :
  mirrored Polling.NUM_LEDS l -> 0 <= level <= 255 ->
  exists l', Polling.drawBar (Polling.litLedsFor level) l = Some l'
             /\ mirrored Polling.NUM_LEDS l'.
Proof.
  intros Hm Hlev. pose proof (Polling_litLedsFor_range level Hlev) as Hr.
  destruct (Polling_drawBar_drawn (Polling.litLedsFor level) l (proj1 Hm) Hr)
    as (l' & Hrun & Hd).
  exists l'. split; [assumption|].
  apply (drawn_mirrored Polling.NUM_LEDS Polling.colorIndex
           (Polling.litLedsFor level) l);
    [lia | change Polling.NUM_LEDS with 10; lia | assumption | assumption].
Qed.

Lemma Polling_loop_mirrored (now reading later : Z) (c : Polling.Controller) :
  mirrored Polling.NUM_LEDS (Polling.leds c) ->
  0 <= Polling.level c <= 255 ->
  exists c', Polling.loop now reading later c = Some c'
             /\ mirrored Polling.NUM_LEDS (Polling.leds c')
             /\ 0 <= Polling.level c' <= 255.
Proof.
  intros Hm Hlev. unfold Polling.loop.
  pose proof (Polling_levelFor_range reading) as Hnew.
  destruct (Polling.state c).
  - eexists; split; [reflexivity|].
    unfold Polling.tickAway.
    repeat split_if; auto.
  - unfold Polling.tickParking.
    destruct (Polling_draw_mirrored (Polling.level c) (Polling.leds c) Hm Hlev)
      as (la & Hla & Hma).
    destruct (Polling_draw_mirrored (Polling.levelFor reading) (Polling.leds c)
                Hm Hnew) as (lb & Hlb & Hmb).
    repeat split_if;
      try rewrite Hla; try rewrite Hlb;
      eexists; (split; [reflexivity|]); polling_fields; auto.
  - eexists; split; [reflexivity|].
    unfold Polling.tickParked.
    repeat split_if; auto;
      (split; [apply fill_solid_mirrored; apply Hm | assumption]).
Qed.

Lemma Polling_run_mirrored (inputs : list (Z * Z * Z))
    (c : Polling.Controller) :
  mirrored Polling.NUM_LEDS (Polling.leds c) ->
  0 <= Polling.level c <= 255 ->
  exists c', Polling.run inputs c = Some c'
             /\ mirrored Polling.NUM_LEDS (Polling.leds c').
Proof.
  revert c; induction inputs as [|[[now reading] later] inputs IH];
    intros c Hm Hlev; cbn [Polling.run]; [eauto|].
  destruct (Polling_loop_mirrored now reading later c Hm Hlev)
    as (c1 & -> & Hm1 & Hl1).
  apply IH; assumption.
Qed.

Lemma Sketch_loop_mirrored (distance : Z) (g : Sketch.Globals) :
  mirrored Sketch.NUM_LEDS (Sketch.leds g) ->
  exists g', Sketch.loop distance g = Some g'
             /\ mirrored Sketch.NUM_LEDS (Sketch.leds g').
Proof.
  intros Hm. unfold Sketch.loop.
  pose proof (fill_solid_mirrored (Sketch.leds g) Sketch.NUM_LEDS Black
                (proj1 Hm)) as Hblank.
  pose proof (Sketch_litLedsFor_range distance) as Hr.
  destruct (Sketch_drawBar_drawn (Sketch.litLedsFor distance)
              (fill_solid (Sketch.leds g) Sketch.NUM_LEDS Black)
              (proj1 Hblank) Hr) as (l' & -> & Hd).
  eexists; split; [reflexivity|]. simpl.
  apply (drawn_mirrored Sketch.NUM_LEDS Sketch.colorIndex
           (Sketch.litLedsFor distance)
           (fill_solid (Sketch.leds g) Sketch.NUM_LEDS Black));
    [lia | change Sketch.NUM_LEDS with 10; lia | assumption | assumption].
Qed.

Lemma Sketch_run_mirrored (distances : list Z) (g : Sketch.Globals) :
  mirrored Sketch.NUM_LEDS (Sketch.leds g) ->
  exists g', Sketch.run distances g = Some g'
             /\ mirrored Sketch.NUM_LEDS (Sketch.leds g').
Proof.
  revert g; induction distances as [|d distances IH]; intros g Hm;
    cbn [Sketch.run]; [eauto|].
  destruct (Sketch_loop_mirrored d g Hm) as (g1 & -> & Hm1).
  apply IH; assumption.
Qed.

(** C6.  Whatever the clock and the sensor do, each of the three sketches
    runs on from [setup()] without leaving its pixel array, and after every
    callback and every tick (every loop iteration in the polled sketch and
    in [parking_helper.ino]) the frame buffer holds the same colour at
    index [i] and at index [NUM_LEDS-1-i], for every [i] in
    0..[NUM_LEDS]-1. *)
Theorem C6_frame_mirrored :
  (forall acts : list Async.Action,
      exists c, Async.execAll acts Async.setup = Some c
        /\ Z.of_nat (length (Async.leds c)) = Async.NUM_LEDS
        /\ forall i, 0 <= i < Async.NUM_LEDS ->
             Async.leds c !! Z.to_nat i
             = Async.leds c !! Z.to_nat (Async.NUM_LEDS - 1 - i))
  /\ (forall inputs : list (Z * option Async.SonarEvent),
        exists c, Async.run inputs Async.setup = Some c
          /\ forall i, 0 <= i < Async.NUM_LEDS ->
               Async.leds c !! Z.to_nat i
               = Async.leds c !! Z.to_nat (Async.NUM_LEDS - 1 - i))
  /\ (forall inputs : list (Z * Z * Z),
        exists c, Polling.run inputs Polling.setup = Some c
          /\ Z.of_nat (length (Polling.leds c)) = Polling.NUM_LEDS
          /\ forall i, 0 <= i < Polling.NUM_LEDS ->
               Polling.leds c !! Z.to_nat i
               = Polling.leds c !! Z.to_nat (Polling.NUM_LEDS - 1 - i))
  /\ (forall distances : list Z,
        exists g, Sketch.run distances Sketch.setup = Some g
          /\ Z.of_nat (length (Sketch.leds g)) = Sketch.NUM_LEDS
          /\ forall i, 0 <= i < Sketch.NUM_LEDS ->
               Sketch.leds g !! Z.to_nat i
               = Sketch.leds g !! Z.to_nat (Sketch.NUM_LEDS - 1 - i)).
Proof.
  split; [|split; [|split]].
  - intros acts.
    destruct (Async_execAll_mirrored acts Async.setup Async_setup_mirrored)
      as (c & Hc & Hlen & Hsym).
    exists c. auto.
  - intros inputs.
    destruct (Async_run_mirrored inputs Async.setup Async_setup_mirrored)
      as (c & Hc & Hlen & Hsym).
    exists c. auto.
  - intros inputs.
    destruct (Polling_run_mirrored inputs Polling.setup
                (proj1 Polling_setup_mirrored) (proj2 Polling_setup_mirrored))
      as (c & Hc & Hlen & Hsym).
    exists c. auto.
  - intros distances.
    assert (Hs : mirrored Sketch.NUM_LEDS (Sketch.leds Sketch.setup))
      by (apply fill_solid_mirrored; reflexivity).
    destruct (Sketch_run_mirrored distances Sketch.setup Hs)
      as (g & Hg & Hlen & Hsym).
    exists g. auto.
Qed.

End Mirror.

(** ** C7: entry actions *)

Ltac async_fields :=
  cbn [Async.state Async.isTransitioning Async.inactivityTimer
       Async.prevDistance Async.leds Async.shown Async.triggerInterval
       Async.serial
       Async.set_state Async.set_isTransitioning Async.set_inactivityTimer
       Async.set_prevDistance Async.set_leds Async.FastLED_show
       Async.SetTriggerInterval Async.Serial_println Async.transitionTo].

Section EntryActions.

Context {pal : Palette}.

Import Async.

(** With the flag set, a tick runs the entry actions of the current state,
    clears the flag and stays in the state. *)
Lemma tick_entering (now : Z) (c : Controller) :
  isTransitioning c = true ->
  state (tick now c) = state c
  /\ isTransitioning (tick now c) = false
  /\ serial (tick now c) = serial c ++ [OutLine (stateName (state c))]
  /\ triggerInterval (tick now c) = Some (stateInterval (state c))
  /\ prevDistance (tick now c) = prevDistance c
  /\ (state c = PARKING_STATE -> inactivityTimer (tick now c) = now)
  /\ (state c = PARKED_STATE ->
        leds (tick now c) = fill_solid (leds c) NUM_LEDS Black
        /\ shown (tick now c) = Some (fill_solid (leds c) NUM_LEDS Black)).
Proof.
  intros Hf. unfold tick.
  destruct (state c) eqn:Hs.
  - unfold tickAway. rewrite Hf. async_fields. rewrite Hs.
    repeat split; intros; discriminate.
  - unfold tickParking. rewrite Hf. async_fields.
    rewrite hasPassed_fresh by (cbv; reflexivity). async_fields. rewrite Hs.
    repeat split; intros; discriminate.
  - unfold tickParked. rewrite Hf. async_fields. rewrite Hs.
    repeat split; intros; discriminate.
Qed.

(** With the flag clear, a tick changes nothing, unless it is the tick of
    [PARKING_STATE] that finds the inactivity timer expired: then it makes
    the transition to [PARKED_STATE] and nothing else. *)
Lemma tick_settled (now : Z) (c : Controller) :
  isTransitioning c = false ->
  tick now c = c
  \/ (state c = PARKING_STATE /\ tick now c = transitionTo PARKED_STATE c).
Proof.
  intros Hf. unfold tick.
  destruct (state c) eqn:Hs.
  - left. unfold tickAway. rewrite Hf. reflexivity.
  - unfold tickParking. rewrite Hf.
    destruct (LightChrono.hasPassed _ _ _); [right|left]; auto.
  - left. unfold tickParked. rewrite Hf. reflexivity.
Qed.

Lemma parkingPing_keeps (now d : Z) (c c' : Controller) :
  parkingPingReceived now d c = Some c' ->
  state c' = state c
  /\ isTransitioning c' = isTransitioning c
  /\ serial c' = serial c
  /\ triggerInterval c' = triggerInterval c.
Proof.
  unfold parkingPingReceived.
  destruct (_ || _); [intros [= <-]; auto|].
  destruct (4 <? _); async_fields;
    (destruct (drawBar _ _); [|discriminate]);
    intros [= <-]; async_fields; auto.
Qed.

(** An action that starts with the flag clear and does not change the
    state leaves the flag clear, the serial output and the trigger interval
    alone. *)
Lemma exec_settled (a : Action) (c c' : Controller) :
  exec a c = Some c' ->
  isTransitioning c = false ->
  state c' = state c ->
  isTransitioning c' = false
  /\ serial c' = serial c
  /\ triggerInterval c' = triggerInterval c.
Proof.
  intros He Hf Hs. destruct a as [now [d|]|now]; cbn [exec Update] in He.
  - unfold PingRecieved in He. destruct (state c) eqn:Hst.
    + injection He as <-. unfold awayPingReceived in *.
      destruct (_ && _); [|auto].
      async_fields. revert Hs. async_fields. congruence.
    + destruct (parkingPing_keeps now d c c' He) as (_ & -> & -> & ->). auto.
    + injection He as <-. unfold parkedPingReceived in *.
      destruct (_ <? _); [|auto].
      revert Hs. async_fields. congruence.
  - injection He as <-. unfold PingTimeout in *.
    destruct (state c) eqn:Hst; auto.
    revert Hs. async_fields. congruence.
  - injection He as <-.
    destruct (tick_settled now c Hf) as [Heq|[Hst Heq]]; rewrite Heq in *.
    + auto.
    + revert Hs. async_fields. congruence.
Qed.

Lemma execAll_settled (acts : list Action) (c c' : Controller) :
  execAll acts c = Some c' ->
  isTransitioning c = false ->
  steady acts c ->
  state c' = state c
  /\ isTransitioning c' = false
  /\ serial c' = serial c
  /\ triggerInterval c' = triggerInterval c.
Proof.
  revert c; induction acts as [|a acts IH]; intros c He Hf Hst;
    cbn [execAll steady] in *.
  - injection He as <-. auto.
  - destruct (exec a c) as [c1|] eqn:Ha; [|discriminate].
    destruct Hst as [Hs1 Hst].
    destruct (exec_settled a c c1 Ha Hf Hs1) as (Hf1 & Hser & Hint).
    destruct (IH c1 He Hf1 Hst) as (-> & -> & -> & ->). auto.
Qed.

(** The entry actions and the frame: entering [PARKED_STATE] turns every
    pixel off and pushes that frame, entering another state leaves the
    frame alone. *)
Lemma tick_entering_display (now : Z) (c : Controller) :
  isTransitioning c = true ->
  Z.of_nat (length (leds c)) = NUM_LEDS ->
  (state c = PARKED_STATE ->
     leds (tick now c) = replicate (Z.to_nat NUM_LEDS) Black
     /\ shown (tick now c) = Some (replicate (Z.to_nat NUM_LEDS) Black))
  /\ (state c <> PARKED_STATE ->
        leds (tick now c) = leds c /\ shown (tick now c) = shown c).
Proof.
  intros Hf Hlen. unfold tick.
  destruct (state c) eqn:Hs.
  - unfold tickAway. rewrite Hf. async_fields.
    split; [discriminate | auto].
  - unfold tickParking. rewrite Hf. async_fields.
    rewrite hasPassed_fresh by (cbv; reflexivity). async_fields.
    split; [discriminate | auto].
  - unfold tickParked. rewrite Hf. async_fields.
    rewrite fill_solid_full by assumption.
    split; [auto | intros Hne; exfalso; apply Hne; reflexivity].
Qed.

(** X16.  With the flag set and a 24-pixel buffer, the tick stays in the
    current state and runs its entry actions: it prints the state's name,
    sets the state's trigger interval, restarts the inactivity timer
    (entering [PARKING_STATE]) or turns every pixel off and pushes that
    frame (entering [PARKED_STATE]), and clears the flag.  From then on,
    through any callbacks and ticks during which the state does not
    change, the flag stays clear, nothing more is printed, the trigger
    interval is not set again, and a further tick either changes nothing at
    all or is the transition from [PARKING_STATE] to [PARKED_STATE]: the
    entry actions are not run a second time. *)
Theorem X16_entry_actions_not_repeated (c : Controller) (now : Z) :
  isTransitioning c = true ->
  Z.of_nat (length (leds c)) = NUM_LEDS ->
  (state (tick now c) = state c
   /\ isTransitioning (tick now c) = false
   /\ serial (tick now c) = serial c ++ [OutLine (stateName (state c))]
   /\ triggerInterval (tick now c) = Some (stateInterval (state c))
   /\ prevDistance (tick now c) = prevDistance c
   /\ (state c = PARKING_STATE -> inactivityTimer (tick now c) = now)
   /\ (state c = PARKED_STATE ->
         leds (tick now c) = replicate (Z.to_nat NUM_LEDS) Black
         /\ shown (tick now c) = Some (replicate (Z.to_nat NUM_LEDS) Black))
   /\ (state c <> PARKED_STATE ->
         leds (tick now c) = leds c /\ shown (tick now c) = shown c))
  /\ forall (acts : list Action) (c2 : Controller),
       execAll acts (tick now c) = Some c2 ->
       steady acts (tick now c) ->
       state c2 = state c
       /\ isTransitioning c2 = false
       /\ serial c2 = serial c ++ [OutLine (stateName (state c))]
       /\ triggerInterval c2 = Some (stateInterval (state c))
       /\ forall now',
            tick now' c2 = c2
            \/ (state c2 = PARKING_STATE
                /\ tick now' c2 = transitionTo PARKED_STATE c2).
Proof.
  intros Hf Hlen.
  destruct (tick_entering now c Hf) as (Hs & Hf1 & Hser & Hint & Hp & Ht & _).
  destruct (tick_entering_display now c Hf Hlen) as (Hblank & Hkept).
  split; [auto 10|].
  intros acts c2 He Hst.
  destruct (execAll_settled acts (tick now c) c2 He Hf1 Hst)
    as (Hs2 & Hf2 & Hser2 & Hint2).
  repeat split; try congruence.
  intros now'. apply tick_settled; assumption.
Qed.

End EntryActions.

(** A lit frame on entering [PARKED_STATE]: the tick blanks it, and the
    callbacks and ticks that follow print nothing more. *)
Lemma X16_entry_actions_not_repeated_witness :
  exists c2,
    Async.leds
      (Async.tick 0
         (Async.transitionTo Async.PARKED_STATE
            (Async.set_leds (replicate 24 (mkCRGB 0 255 0)) Async.setup)))
    = replicate 24 Black
    /\ Async.execAll (pal := rampPalette)
         [Async.Tick 5; Async.Callback 7 (Async.Reading 50); Async.Tick 9]
         (Async.tick 0
            (Async.transitionTo Async.PARKED_STATE
               (Async.set_leds (replicate 24 (mkCRGB 0 255 0)) Async.setup)))
       = Some c2
    /\ Async.isTransitioning c2 = false
    /\ Async.serial c2 = Async.serial Async.setup ++ [OutLine "PARKED"].
Proof.
  set (c := Async.transitionTo Async.PARKED_STATE
              (Async.set_leds (replicate 24 (mkCRGB 0 255 0)) Async.setup)).
  destruct (X16_entry_actions_not_repeated (pal := rampPalette) c 0
              eq_refl eq_refl) as [Hfirst Hlater].
  destruct Hfirst as (_ & _ & _ & _ & _ & _ & Hblank & _).
  set (acts := [Async.Tick 5; Async.Callback 7 (Async.Reading 50);
                Async.Tick 9]).
  assert (Hrun : exists c2,
             Async.execAll (pal := rampPalette) acts (Async.tick 0 c)
             = Some c2)
    by (vm_compute; eexists; reflexivity).
  destruct Hrun as [c2 Hrun].
  assert (Hsteady : Async.steady (pal := rampPalette) acts (Async.tick 0 c))
    by (vm_compute; auto).
  destruct (Hlater acts c2 Hrun Hsteady) as (_ & Hflag & Hser & _).
  exists c2.
  split; [exact (proj1 (Hblank eq_refl))|].
  split; [exact Hrun|]. split; [exact Hflag | exact Hser].
Defined.

(** C7.  The callback-driven sketch makes the transition to [PARKED_STATE]
    in a tick, and the entry actions of the new state wait for the next
    tick; the callback of the next iteration comes first.  After the four
    iterations below the controller is in [PARKED_STATE] with the flag set
    and eleven pixels lit per half.  A reading of 150 inches in the next
    iteration, or a timeout, moves it to [AWAY_STATE] before [tickParked]
    has run: "PARKED" is never printed, the frame is not blanked and stays
    on the strip, and the only entry actions run are those of
    [AWAY_STATE]. *)
Theorem C7_parked_entry_skipped :
  exists c4,
    Async.run (pal := rampPalette)
      [(0, None); (10, Some (Async.Reading 50)); (50, Some (Async.Reading 20));
       (5050, None)]
      Async.setup = Some c4
    /\ Async.state c4 = Async.PARKED_STATE
    /\ Async.isTransitioning c4 = true
    /\ Async.serial c4
       = Async.serial Async.setup ++ [OutLine "AWAY"; OutLine "PARKING"]
    /\ Async.leds c4 !! 10%nat = Some (rampPalette 212)
    /\ Async.shown c4 = Some (Async.leds c4)
    /\ (exists c5,
          Async.loop (pal := rampPalette) 5051 (Some (Async.Reading 150)) c4
          = Some c5
          /\ Async.state c5 = Async.AWAY_STATE
          /\ Async.isTransitioning c5 = false
          /\ Async.serial c5 = Async.serial c4 ++ [OutLine "AWAY"]
          /\ Async.leds c5 = Async.leds c4
          /\ Async.shown c5 = Async.shown c4)
    /\ (exists c5,
          Async.loop (pal := rampPalette) 5051 (Some Async.NoEcho) c4
          = Some c5
          /\ Async.state c5 = Async.AWAY_STATE
          /\ Async.isTransitioning c5 = false
          /\ Async.serial c5
             = Async.serial c4 ++ [OutLine "Timed out"; OutLine "AWAY"]
          /\ Async.leds c5 = Async.leds c4
          /\ Async.shown c5 = Async.shown c4).
Proof.
  eexists. split; [vm_compute; reflexivity|].
  repeat (split; [reflexivity|]).
  split; eexists; (split; [vm_compute; reflexivity|]);
    repeat split; reflexivity.
Qed.

(** ** C10: [prevDistance] outlives a parking session *)

Section PrevDistance.

Context {pal : Palette}.

Import Async.

Lemma tick_prevDistance (now : Z) (c : Controller) :
  prevDistance (tick now c) = prevDistance c.
Proof.
  unfold tick, tickAway, tickParking, tickParked.
  destruct (state c), (isTransitioning c); async_fields;
    try reflexivity;
    destruct (LightChrono.hasPassed _ _ _); reflexivity.
Qed.

(** Only a reading handled in [PARKING_STATE] can write [prevDistance]. *)
Lemma exec_prevDistance (a : Action) (c c' : Controller) :
  exec a c = Some c' ->
  parkingReading a c = false ->
  prevDistance c' = prevDistance c.
Proof.
  intros He Hq. destruct a as [now [d|]|now]; cbn [exec Update] in He.
  - unfold PingRecieved in He. unfold parkingReading in Hq.
    destruct (state c); try discriminate; injection He as <-.
    + unfold awayPingReceived. destruct (_ && _); reflexivity.
    + unfold parkedPingReceived. destruct (_ <? _); reflexivity.
  - injection He as <-. unfold PingTimeout. destruct (state c); reflexivity.
  - injection He as <-. apply tick_prevDistance.
Qed.

Lemma execAll_prevDistance (acts : list Action) (c c' : Controller) :
  execAll acts c = Some c' ->
  betweenReadings acts c = true ->
  prevDistance c' = prevDistance c.
Proof.
  revert c; induction acts as [|a acts IH]; intros c He Hq;
    cbn [execAll betweenReadings] in *.
  - injection He as <-. reflexivity.
  - destruct (exec a c) as [c1|] eqn:Ha; [|discriminate].
    apply andb_true_iff in Hq as [Hq1 Hq2].
    apply negb_true_iff in Hq1.
    rewrite (IH c1 He Hq2). apply (exec_prevDistance a); assumption.
Qed.

(** What a reading inside the trigger band does to [prevDistance] and to
    the inactivity timer. *)
Lemma parkingPing_effect (now d : Z) (c : Controller) :
  mirrored NUM_LEDS (leds c) ->
  MIN_TRIGGER_DISTANCE <= d <= MAX_TRIGGER_DISTANCE ->
  exists c', parkingPingReceived now d c = Some c'
    /\ prevDistance c'
       = (if 4 <? Arduino.abs_uint (u16 (d - prevDistance c))
          then d else prevDistance c)
    /\ inactivityTimer c'
       = (if 4 <? Arduino.abs_uint (u16 (d - prevDistance c))
          then now else inactivityTimer c).
Proof.
  intros Hm Hd.
  destruct (Async_parkingPing_mirrored now d c Hm) as (c' & Hc & _).
  exists c'. split; [assumption|].
  revert Hc. unfold parkingPingReceived.
  destruct (Z.ltb_spec d MIN_TRIGGER_DISTANCE); [lia|].
  destruct (Z.ltb_spec MAX_TRIGGER_DISTANCE d); [lia|].
  cbn [orb].
  destruct (4 <? _); async_fields;
    (destruct (drawBar _ _); [|discriminate]);
    intros [= <-]; async_fields; auto.
Qed.

(** C10.  [prevDistance] is 0 after [setup()]; the entry actions of
    [PARKING_STATE] restart the inactivity timer and leave [prevDistance]
    alone; so does every callback and tick other than a reading handled in
    [PARKING_STATE].  Hence, when the controller has left a parking session
    with [prevDistance c] and comes back to [PARKING_STATE], the first
    reading inside the trigger band is compared with that value (with 0 if
    there was no session before). *)
Theorem C10_prevDistance_persists :
  prevDistance setup = 0
  /\ (forall (c : Controller) (now : Z),
         state c = PARKING_STATE -> isTransitioning c = true ->
         inactivityTimer (tick now c) = now
         /\ prevDistance (tick now c) = prevDistance c)
  /\ (forall (acts : list Action) (c c1 : Controller),
         execAll acts c = Some c1 ->
         betweenReadings acts c = true ->
         prevDistance c1 = prevDistance c)
  /\ (forall (before acts : list Action) (c c1 : Controller) (now d : Z),
         execAll before setup = Some c ->
         execAll acts c = Some c1 ->
         betweenReadings acts c = true ->
         state c1 = PARKING_STATE ->
         MIN_TRIGGER_DISTANCE <= d <= MAX_TRIGGER_DISTANCE ->
         exists c2, PingRecieved now d c1 = Some c2
           /\ prevDistance c2
              = (if 4 <? Arduino.abs_uint (u16 (d - prevDistance c))
                 then d else prevDistance c)).
Proof.
  split; [reflexivity|].
  split; [|split].
  - intros c now Hs Hf.
    destruct (tick_entering now c Hf) as (_ & _ & _ & _ & Hp & Ht & _).
    split; [apply Ht; assumption | assumption].
  - intros acts c c1. apply execAll_prevDistance.
  - intros before acts c c1 now d Hb Ha Hq Hs Hd.
    destruct (Async_execAll_mirrored before setup Async_setup_mirrored)
      as (c' & Hb' & Hm).
    rewrite Hb in Hb'. injection Hb' as <-.
    destruct (Async_execAll_mirrored acts c Hm) as (c1' & Ha' & Hm1).
    rewrite Ha in Ha'. injection Ha' as <-.
    destruct (parkingPing_effect now d c1 Hm1 Hd) as (c2 & Hc2 & Hp & _).
    exists c2. unfold PingRecieved. rewrite Hs.
    split; [assumption|].
    rewrite Hp. rewrite (execAll_prevDistance acts c c1 Ha Hq). reflexivity.
Qed.

End PrevDistance.

Lemma C10_prevDistance_persists_witness :
  exists c c1 c2,
    Async.execAll (pal := rampPalette)
      [Async.Tick 0; Async.Callback 10 (Async.Reading 50); Async.Tick 10;
       Async.Callback 50 (Async.Reading 50); Async.Tick 50]
      Async.setup = Some c
    /\ Async.execAll (pal := rampPalette)
         [Async.Tick 5050; Async.Tick 5051;
          Async.Callback 6000 (Async.Reading 150); Async.Tick 6000;
          Async.Callback 7000 (Async.Reading 60); Async.Tick 7000]
         c = Some c1
    /\ Async.prevDistance c = 50
    /\ Async.state c1 = Async.PARKING_STATE
    /\ Async.inactivityTimer c1 = 7000
    /\ Async.PingRecieved (pal := rampPalette) 7040 52 c1 = Some c2
    /\ Async.prevDistance c2 = 50.
Proof.
  set (before := [Async.Tick 0; Async.Callback 10 (Async.Reading 50);
                  Async.Tick 10; Async.Callback 50 (Async.Reading 50);
                  Async.Tick 50]).
  set (acts := [Async.Tick 5050; Async.Tick 5051;
                Async.Callback 6000 (Async.Reading 150); Async.Tick 6000;
                Async.Callback 7000 (Async.Reading 60); Async.Tick 7000]).
  assert (Hruns : exists c c1,
             Async.execAll (pal := rampPalette) before Async.setup = Some c
             /\ Async.execAll (pal := rampPalette) acts c = Some c1
             /\ Async.prevDistance c = 50
             /\ Async.state c1 = Async.PARKING_STATE
             /\ Async.inactivityTimer c1 = 7000
             /\ Async.betweenReadings (pal := rampPalette) acts c = true).
  { eexists. eexists.
    split; [vm_compute; reflexivity|].
    split; [vm_compute; reflexivity|].
    repeat split; vm_compute; reflexivity. }
  destruct Hruns as (c & c1 & Hb & Ha & Hprev & Hs & Ht & Hq).
  destruct (proj2 (proj2 (proj2 (C10_prevDistance_persists (pal := rampPalette))))
              before acts c c1 7040 52 Hb Ha Hq Hs)
    as (c2 & Hc2 & Hp).
  { unfold Async.MIN_TRIGGER_DISTANCE, Async.MAX_TRIGGER_DISTANCE; lia. }
  exists c, c1, c2.
  repeat (split; [assumption|]).
  rewrite Hp, Hprev. reflexivity.
Defined.

Lemma C8_parking_discards_out_of_band_witness :
  Async.state (Async.transitionTo Async.PARKING_STATE Async.setup)
  = Async.PARKING_STATE
  /\ (3 < Async.MIN_TRIGGER_DISTANCE \/ 3 > Async.MAX_TRIGGER_DISTANCE)
  /\ Async.PingRecieved (pal := rampPalette) 0 3
       (Async.transitionTo Async.PARKING_STATE Async.setup)
     = Some (Async.transitionTo Async.PARKING_STATE Async.setup).
Proof.
  assert (Hd : 3 < Async.MIN_TRIGGER_DISTANCE \/ 3 > Async.MAX_TRIGGER_DISTANCE)
    by (left; unfold Async.MIN_TRIGGER_DISTANCE; lia).
  split; [reflexivity|].
  split; [exact Hd|].
  exact (C8_parking_discards_out_of_band (pal := rampPalette)
           (Async.transitionTo Async.PARKING_STATE Async.setup) 0 3 eq_refl Hd).
Defined.

Lemma C6_frame_mirrored_witness :
  exists c,
    Async.run (pal := rampPalette)
      [(0, None); (10, Some (Async.Reading 50)); (50, Some (Async.Reading 30))]
      Async.setup = Some c
    /\ Async.leds c !! Z.to_nat 3
       = Async.leds c !! Z.to_nat (Async.NUM_LEDS - 1 - 3).
Proof.
  destruct (proj1 (proj2 (C6_frame_mirrored (pal := rampPalette)
                            (rst := resetIsRestart)))
              [(0, None); (10, Some (Async.Reading 50));
               (50, Some (Async.Reading 30))])
    as (c & Hrun & Hsym).
  exists c. split; [exact Hrun|].
  apply Hsym. unfold Async.NUM_LEDS. lia.
Defined.

(** ** A corner of the callback-driven loop

    The transition to [PARKED_STATE] is made by a tick; if the very next
    callback is a reading above [MAX_TRIGGER_DISTANCE], the controller is in
    [AWAY_STATE] before [tickParked] has run: "PARKED" is never printed and
    the bar is left lit. *)
Remark parked_entry_overtaken_by_reading :
  exists c,
    Async.run (pal := rampPalette)
      [(0, None); (10, Some (Async.Reading 50)); (50, Some (Async.Reading 20));
       (5050, None); (5051, Some (Async.Reading 150))]
      Async.setup = Some c
    /\ Async.state c = Async.AWAY_STATE
    /\ Async.isTransitioning c = false
    /\ Async.serial c
       = Async.serial Async.setup
         ++ [OutLine "AWAY"; OutLine "PARKING"; OutLine "AWAY"]
    /\ Async.leds c !! 0%nat = Some (rampPalette 0)
    /\ Async.shown c <> Some (replicate 24 Black).
Proof.
  eexists. split; [vm_compute; reflexivity|].
  repeat split; try reflexivity. discriminate.
Qed.

(** ** A corner of the polled sketch

    Past [MAX_DISTANCE] the value of [map] is negative and wraps in the
    [uint8_t] it is assigned to: two centimetres beyond the range the level
    is back at its maximum. *)
Remark Polling_level_wraps_past_range :
  Polling.levelFor 400 = 0
  /\ Polling.levelFor 401 = 0
  /\ Polling.levelFor 402 = 255
  /\ Polling.litLedsFor (Polling.levelFor 402) = 5.
Proof. repeat split; reflexivity. Qed.

(** ** The sketches on concrete readings *)

(** Reading 50 while away: the controller is parking. *)
Example away_reading_50 :
  exists c, Async.loop (pal := rampPalette) 0 (Some (Async.Reading 50))
              Async.setup = Some c
            /\ Async.state c = Async.PARKING_STATE.
Proof. eexists. split; [vm_compute; reflexivity | reflexivity]. Qed.

(** Readings that stay where they are for five seconds: the controller is
    parked and the display is blank. *)
Example parked_after_inactivity :
  exists c, Async.run (pal := rampPalette)
              [(0, None); (10, Some (Async.Reading 50));
               (50, Some (Async.Reading 50)); (2000, Some (Async.Reading 52));
               (4000, Some (Async.Reading 51)); (5050, None); (5051, None)]
              Async.setup = Some c
            /\ Async.state c = Async.PARKED_STATE
            /\ Async.shown c = Some (replicate 24 Black).
Proof. eexists. split; [vm_compute; reflexivity|]. split; reflexivity. Qed.

(** 24 pixels, display range 10..80: all twelve pixels of a half at 10, none
    at 80. *)
Example lit_count_at_display_bounds :
  Async.litLedsFor 10 = 12 /\ Async.litLedsFor 80 = 0.
Proof. split; reflexivity. Qed.

(** Sweet spot 31: full level at 20, none at [MAX_DISTANCE]. *)
Example level_at_sweet_spot :
  Polling.levelFor 20 = 255 /\ Polling.levelFor 400 = 0.
Proof. split; reflexivity. Qed.

(** * Further properties of the three sketches *)

(** ** The callback-driven state machine as a whole *)

(** [millis()] wraps at 2^32; the unsigned subtraction in [elapsed()] still
    gives the time that has passed. *)
Lemma elapsed_after (start dt : Z) :
  0 <= dt < 4294967296 ->
  LightChrono.elapsed (u32 (start + dt)) start = dt.
Proof.
  intros Hdt. unfold LightChrono.elapsed, u32.
  rewrite Zminus_mod_idemp_l.
  replace (start + dt - start) with dt by lia.
  apply Z.mod_small; lia.
Qed.

Section AsyncMachine.

Context {pal : Palette}.

Import Async.

(** Every change of state and its cause. *)
Lemma exec_changes_state (a : Action) (c c' : Controller) :
  exec a c = Some c' ->
  state c' <> state c ->
  isTransitioning c' = true
  /\ ((state c = AWAY_STATE /\ state c' = PARKING_STATE
       /\ exists now d, a = Callback now (Reading d)
            /\ MIN_TRIGGER_DISTANCE < d < MAX_TRIGGER_DISTANCE)
      \/ (state c = PARKING_STATE /\ state c' = PARKED_STATE
          /\ isTransitioning c = false
          /\ exists now, a = Tick now
               /\ INACTIVITY_SECONDS * 1000
                  <= LightChrono.elapsed now (inactivityTimer c))
      \/ (state c = PARKED_STATE /\ state c' = AWAY_STATE
          /\ exists now ev, a = Callback now ev
               /\ (ev = NoEcho
                   \/ exists d, ev = Reading d /\ MAX_TRIGGER_DISTANCE < d))).
Proof.
  intros He Hne. destruct a as [now [d|]|now]; cbn [exec Update] in He.
  - unfold PingRecieved in He. destruct (state c) eqn:Hs.
    + injection He as <-. unfold awayPingReceived in *.
      destruct (Z.ltb_spec MIN_TRIGGER_DISTANCE d);
        destruct (Z.ltb_spec d MAX_TRIGGER_DISTANCE); cbn [andb] in *;
        try (exfalso; apply Hne; exact Hs).
      split; [reflexivity|]. left. repeat split; eauto.
    + destruct (parkingPing_keeps now d c c' He) as (Hsame & _).
      exfalso. apply Hne. congruence.
    + injection He as <-. unfold parkedPingReceived in *.
      destruct (Z.ltb_spec MAX_TRIGGER_DISTANCE d);
        try (exfalso; apply Hne; exact Hs).
      split; [reflexivity|]. right; right. repeat split.
      exists now, (Reading d). split; [reflexivity|]. right. eauto.
  - injection He as <-. unfold PingTimeout in *.
    destruct (state c) eqn:Hs;
      try (exfalso; apply Hne; exact Hs).
    split; [reflexivity|]. right; right. repeat split.
    exists now, NoEcho. split; [reflexivity|]. left. reflexivity.
  - injection He as <-.
    destruct (isTransitioning c) eqn:Hf.
    + exfalso. apply Hne. apply (tick_entering now c Hf).
    + unfold tick in *. destruct (state c) eqn:Hs.
      * exfalso. apply Hne. unfold tickAway. rewrite Hf. exact Hs.
      * unfold tickParking in *. rewrite Hf in *.
        unfold LightChrono.hasPassed in *.
        destruct (Z.leb_spec (INACTIVITY_SECONDS * 1000)
                    (LightChrono.elapsed now (inactivityTimer c)));
          [|exfalso; apply Hne; exact Hs].
        split; [reflexivity|]. right; left. repeat split; eauto.
      * exfalso. apply Hne. unfold tickParked. rewrite Hf. exact Hs.
Qed.

(** X1.  The state changes only along the cycle away, parking, parked,
    away, and each step of the cycle has its own cause: a reading strictly
    inside the trigger band, a tick that finds the inactivity timer expired,
    and a callback that is a timeout or a reading above
    [MAX_TRIGGER_DISTANCE].  Every change of state sets the flag. *)
Theorem X1_async_transition_cycle (a : Action) (c c' : Controller) :
  exec a c = Some c' ->
  state c' <> state c ->
  isTransitioning c' = true
  /\ ((state c = AWAY_STATE /\ state c' = PARKING_STATE
       /\ exists now d, a = Callback now (Reading d)
            /\ MIN_TRIGGER_DISTANCE < d < MAX_TRIGGER_DISTANCE)
      \/ (state c = PARKING_STATE /\ state c' = PARKED_STATE
          /\ isTransitioning c = false
          /\ exists now, a = Tick now
               /\ INACTIVITY_SECONDS * 1000
                  <= LightChrono.elapsed now (inactivityTimer c))
      \/ (state c = PARKED_STATE /\ state c' = AWAY_STATE
          /\ exists now ev, a = Callback now ev
               /\ (ev = NoEcho
                   \/ exists d, ev = Reading d /\ MAX_TRIGGER_DISTANCE < d))).
Proof. apply exec_changes_state. Qed.

(** X2.  With the flag clear in [PARKING_STATE], a tick that comes [dt]
    milliseconds after the inactivity timer was restarted makes the
    transition to [PARKED_STATE] when [dt] is at least five seconds and
    does nothing when it is less, also when [millis()] has wrapped around
    in between. *)
Theorem X2_inactivity_deadline (c : Controller) (dt : Z) :
  state c = PARKING_STATE ->
  isTransitioning c = false ->
  0 <= dt < 4294967296 ->
  (5000 <= dt ->
     tick (u32 (inactivityTimer c + dt)) c = transitionTo PARKED_STATE c)
  /\ (dt < 5000 -> tick (u32 (inactivityTimer c + dt)) c = c).
Proof.
  intros Hs Hf Hdt.
  unfold tick. rewrite Hs. unfold tickParking. rewrite Hf.
  unfold LightChrono.hasPassed. rewrite elapsed_after by assumption.
  change (INACTIVITY_SECONDS * 1000) with 5000.
  destruct (Z.leb_spec 5000 dt); split; intros; try lia; reflexivity.
Qed.

(** A callback either keeps state and flag or changes the state and sets
    the flag. *)
Lemma Update_state_flag (now : Z) (ev : option SonarEvent) (c c1 : Controller) :
  Update now ev c = Some c1 ->
  (state c1 = state c /\ isTransitioning c1 = isTransitioning c)
  \/ (state c1 <> state c /\ isTransitioning c1 = true).
Proof.
  intros Hu. destruct ev as [[d|]|]; cbn [Update] in Hu.
  - unfold PingRecieved in Hu. destruct (state c) eqn:Hs.
    + injection Hu as <-. unfold awayPingReceived.
      destruct (_ && _); [right|left]; async_fields; rewrite ?Hs; auto;
        (split; [discriminate|reflexivity]).
    + destruct (parkingPing_keeps now d c c1 Hu) as (H1 & H2 & _).
      left. rewrite <- Hs. auto.
    + injection Hu as <-. unfold parkedPingReceived.
      destruct (_ <? _); [right|left]; async_fields; rewrite ?Hs; auto;
        (split; [discriminate|reflexivity]).
  - injection Hu as <-. unfold PingTimeout.
    destruct (state c) eqn:Hs; [left|left|right]; async_fields;
      rewrite ?Hs; auto;
      (split; [discriminate|reflexivity]).
  - injection Hu as <-. left. auto.
Qed.

(** X3.  One iteration of [loop()] ends with the flag set only when its
    tick has just made the transition from [PARKING_STATE] to
    [PARKED_STATE].  An iteration that ends in [AWAY_STATE] or
    [PARKING_STATE] after a change of state has run that state's entry
    actions: the last line printed is the state's name and the trigger
    interval is the state's. *)
Theorem X3_entry_within_iteration (now : Z) (ev : option SonarEvent)
    (c c' : Controller) :
  loop now ev c = Some c' ->
  (isTransitioning c' = true ->
     state c = PARKING_STATE /\ isTransitioning c = false
     /\ state c' = PARKED_STATE)
  /\ (state c' <> state c -> state c' <> PARKED_STATE ->
        isTransitioning c' = false
        /\ triggerInterval c' = Some (stateInterval (state c'))
        /\ exists before,
             serial c' = before ++ [OutLine (stateName (state c'))]).
Proof.
  unfold loop. destruct (Update now ev c) as [c1|] eqn:Hu; [|discriminate].
  intros [= <-].
  destruct (isTransitioning c1) eqn:Hf1.
  - destruct (tick_entering now c1 Hf1) as (Hs & Hf & Hser & Hint & _).
    split; [congruence|].
    intros _ _. rewrite Hs. split; [assumption|]. split; [assumption|].
    eexists. exact Hser.
  - destruct (Update_state_flag now ev c c1 Hu) as [[Hs1 Hfl]|[_ Hfl]];
      [|congruence].
    destruct (tick_settled now c1 Hf1) as [->|[Hp ->]].
    + split; [congruence|]. intros Hne. exfalso. apply Hne. exact Hs1.
    + split.
      * intros _. split; [congruence|]. split; [congruence|reflexivity].
      * intros _ Hnp. exfalso. apply Hnp. reflexivity.
Qed.

(** The trigger interval belongs to the state whenever the flag is clear. *)
Lemma exec_interval (a : Action) (c c' : Controller) :
  exec a c = Some c' ->
  (isTransitioning c = false ->
   triggerInterval c = Some (stateInterval (state c))) ->
  isTransitioning c' = false ->
  triggerInterval c' = Some (stateInterval (state c')).
Proof.
  intros He Hinv Hf'. destruct a as [now ev|now]; cbn [exec] in He.
  - destruct (Update_state_flag now (Some ev) c c' He) as [[Hs Hf]|[_ Hf]];
      [|congruence].
    assert (Hfc : isTransitioning c = false) by congruence.
    destruct (exec_settled (Callback now ev) c c' He Hfc Hs) as (_ & _ & ->).
    rewrite Hs. auto.
  - injection He as <-.
    destruct (isTransitioning c) eqn:Hf.
    + destruct (tick_entering now c Hf) as (Hs & _ & _ & Hint & _).
      rewrite Hs. exact Hint.
    + destruct (tick_settled now c Hf) as [Heq|[_ Heq]]; rewrite Heq in *.
      * auto.
      * discriminate.
Qed.

Lemma execAll_interval (acts : list Action) (c c' : Controller) :
  execAll acts c = Some c' ->
  (isTransitioning c = false ->
   triggerInterval c = Some (stateInterval (state c))) ->
  isTransitioning c' = false ->
  triggerInterval c' = Some (stateInterval (state c')).
Proof.
  revert c; induction acts as [|a acts IH]; intros c He Hinv;
    cbn [execAll] in He.
  - injection He as <-. exact Hinv.
  - destruct (exec a c) as [c1|] eqn:Ha; [|discriminate].
    apply (IH c1 He). apply (exec_interval a c c1 Ha Hinv).
Qed.

(** X4.  After [setup()], through any callbacks and ticks: whenever the
    flag is clear the sonar has been told to fire every
    [FAST_TRIGGER_INTERVAL] ms in [PARKING_STATE] and every
    [SLOW_TRIGGER_INTERVAL] ms in the two other states. *)
Theorem X4_trigger_interval_follows_state (acts : list Action) (c : Controller) :
  execAll acts setup = Some c ->
  isTransitioning c = false ->
  triggerInterval c
  = Some (match state c with
          | PARKING_STATE => FAST_TRIGGER_INTERVAL
          | _ => SLOW_TRIGGER_INTERVAL
          end).
Proof.
  intros He Hf.
  apply (execAll_interval acts setup c He); [discriminate | assumption].
Qed.

End AsyncMachine.

(** ** Readings during a parking session *)

Section DrawingTwice.

Context {pal : Palette}.
Variable N : Z.
Variable position : Z -> Z.

(** Drawing a bar over a longer bar of the same palette changes nothing. *)
Lemma forUpTo_absorbed (l l' : list CRGB) (n m : Z) :
  2 * n <= N -> 0 <= m <= n ->
  drawn N position n l l' ->
  forUpTo m (fun i => mirrorWrite N (position i) i) l' = Some l'.
Proof.
  intros Hn Hm (Hlen & Hlit & Hmid).
  destruct (forUpTo_drawn N position l' (Z.to_nat m) Hlen ltac:(lia))
    as (l2 & Hrun & Hlen2 & Hlit2 & Hmid2).
  rewrite Z2Nat.id in * by lia.
  rewrite Hrun. f_equal.
  apply list_eq. intros k.
  destruct (Z_lt_le_dec (Z.of_nat k) N) as [Hin|Hout].
  - set (j := Z.of_nat k).
    replace k with (Z.to_nat j) by (unfold j; lia).
    destruct (Z_lt_le_dec j m) as [Hlow|Hge].
    + rewrite (proj1 (Hlit2 j ltac:(lia))).
      rewrite (proj1 (Hlit j ltac:(lia))). reflexivity.
    + destruct (Z_lt_le_dec j (N - m)) as [Hmiddle|Hhigh].
      * apply Hmid2. lia.
      * pose proof (proj2 (Hlit2 (N - 1 - j) ltac:(unfold j; lia))) as H2.
        pose proof (proj2 (Hlit (N - 1 - j) ltac:(unfold j; lia))) as H1.
        replace (N - 1 - (N - 1 - j)) with j in * by lia.
        rewrite H1, H2. reflexivity.
  - rewrite !lookup_ge_None_2 by lia. reflexivity.
Qed.

End DrawingTwice.

Section AsyncParking.

Context {pal : Palette}.

Import Async.

(** A reading inside the trigger band draws its bar over the frame and
    pushes the result. *)
Lemma parkingPing_draws (now d : Z) (c : Controller) :
  Z.of_nat (length (leds c)) = NUM_LEDS ->
  MIN_TRIGGER_DISTANCE <= d <= MAX_TRIGGER_DISTANCE ->
  exists c', parkingPingReceived now d c = Some c'
    /\ drawBar (litLedsFor d) (leds c) = Some (leds c')
    /\ drawn NUM_LEDS colorIndex (litLedsFor d) (leds c) (leds c')
    /\ shown c' = Some (leds c')
    /\ state c' = state c.
Proof.
  intros Hlen Hd. unfold parkingPingReceived.
  destruct (Z.ltb_spec d MIN_TRIGGER_DISTANCE); [lia|].
  destruct (Z.ltb_spec MAX_TRIGGER_DISTANCE d); [lia|].
  cbn [orb].
  destruct (Async_drawBar_drawn (litLedsFor d) (leds c) Hlen
              (Async_litLedsFor_range d)) as (l' & Hrun & Hdrawn).
  destruct (4 <? _); async_fields; rewrite Hrun;
    eexists; (split; [reflexivity|]); async_fields; auto.
Qed.

Lemma parkingPing_prevDistance (now d : Z) (c c' : Controller) :
  parkingPingReceived now d c = Some c' ->
  prevDistance c' = prevDistance c
  \/ (prevDistance c' = d
      /\ MIN_TRIGGER_DISTANCE <= d <= MAX_TRIGGER_DISTANCE).
Proof.
  unfold parkingPingReceived.
  destruct (Z.ltb_spec d MIN_TRIGGER_DISTANCE);
    [intros [= <-]; auto|].
  destruct (Z.ltb_spec MAX_TRIGGER_DISTANCE d);
    [intros [= <-]; auto|].
  cbn [orb].
  destruct (4 <? _); async_fields;
    (destruct (drawBar _ _); [|discriminate]);
    intros [= <-]; async_fields; [right|left]; auto.
Qed.

Lemma exec_prevDistance_band (a : Action) (c c' : Controller) :
  exec a c = Some c' ->
  prevDistance c = 0
  \/ MIN_TRIGGER_DISTANCE <= prevDistance c <= MAX_TRIGGER_DISTANCE ->
  prevDistance c' = 0
  \/ MIN_TRIGGER_DISTANCE <= prevDistance c' <= MAX_TRIGGER_DISTANCE.
Proof.
  intros He Hp. destruct (parkingReading a c) eqn:Hq.
  - destruct a as [now [d|]|now]; try discriminate.
    unfold parkingReading in Hq. cbn [exec Update] in He.
    unfold PingRecieved in He.
    destruct (state c); try discriminate.
    destruct (parkingPing_prevDistance now d c c' He) as [->|[-> Hd]]; auto.
  - rewrite (exec_prevDistance a c c' He Hq). exact Hp.
Qed.

Lemma execAll_prevDistance_band (acts : list Action) (c c' : Controller) :
  execAll acts c = Some c' ->
  prevDistance c = 0
  \/ MIN_TRIGGER_DISTANCE <= prevDistance c <= MAX_TRIGGER_DISTANCE ->
  prevDistance c' = 0
  \/ MIN_TRIGGER_DISTANCE <= prevDistance c' <= MAX_TRIGGER_DISTANCE.
Proof.
  revert c; induction acts as [|a acts IH]; intros c He Hp;
    cbn [execAll] in He.
  - injection He as <-. exact Hp.
  - destruct (exec a c) as [c1|] eqn:Ha; [|discriminate].
    apply (IH c1 He). apply (exec_prevDistance_band a c c1 Ha Hp).
Qed.

(** X5.  Whatever callbacks and ticks follow [setup()], the sketch runs on
    and [prevDistance] is 0 or a distance inside the trigger band
    [MIN_TRIGGER_DISTANCE]..[MAX_TRIGGER_DISTANCE]. *)
Theorem X5_prevDistance_in_band (acts : list Action) :
  exists c, execAll acts setup = Some c
    /\ (prevDistance c = 0
        \/ MIN_TRIGGER_DISTANCE <= prevDistance c <= MAX_TRIGGER_DISTANCE).
Proof.
  destruct (Async_execAll_mirrored acts setup Async_setup_mirrored)
    as (c & He & _).
  exists c. split; [assumption|].
  apply (execAll_prevDistance_band acts setup c He). left. reflexivity.
Qed.

(** X6.  In [PARKING_STATE], on a controller reached from [setup()], a
    reading [d] inside the trigger band is drawn and pushed and keeps the
    state; it is taken for motion, recorded in [prevDistance] and restarts
    the inactivity timer, exactly when it is closer than [prevDistance] by
    any amount or farther by more than 4; a reading from [prevDistance] to
    [prevDistance]+4 leaves both alone. *)
Theorem X6_motion_test (acts : list Action) (c : Controller) (now d : Z) :
  execAll acts setup = Some c ->
  state c = PARKING_STATE ->
  MIN_TRIGGER_DISTANCE <= d <= MAX_TRIGGER_DISTANCE ->
  exists c', PingRecieved now d c = Some c'
    /\ state c' = PARKING_STATE
    /\ shown c' = Some (leds c')
    /\ (d < prevDistance c \/ prevDistance c + 4 < d ->
          prevDistance c' = d /\ inactivityTimer c' = now)
    /\ (prevDistance c <= d <= prevDistance c + 4 ->
          prevDistance c' = prevDistance c
          /\ inactivityTimer c' = inactivityTimer c).
Proof.
  intros He Hs Hd.
  destruct (Async_execAll_mirrored acts setup Async_setup_mirrored)
    as (c0 & He0 & Hm).
  rewrite He in He0. injection He0 as <-.
  assert (Hband : 0 <= prevDistance c <= 100).
  { destruct (execAll_prevDistance_band acts setup c He) as [->|Hp];
      [left; reflexivity | lia |].
    unfold MIN_TRIGGER_DISTANCE, MAX_TRIGGER_DISTANCE in Hp. lia. }
  assert (Hd100 : 0 <= d <= 100)
    by (unfold MIN_TRIGGER_DISTANCE, MAX_TRIGGER_DISTANCE in Hd; lia).
  destruct (parkingPing_draws now d c (proj1 Hm) Hd)
    as (c' & Hc & _ & _ & Hshown & Hstate).
  destruct (parkingPing_effect now d c Hm Hd) as (c2 & Hc2 & Hp & Ht).
  rewrite Hc in Hc2. injection Hc2 as <-.
  exists c'. unfold PingRecieved. rewrite Hs.
  split; [assumption|]. split; [congruence|]. split; [assumption|].
  pose proof (hysteresis_test d (prevDistance c) Hd100 Hband) as Htest.
  destruct (4 <? Arduino.abs_uint (u16 (d - prevDistance c))).
  - split; [auto|]. intros Hnear.
    assert (d < prevDistance c \/ prevDistance c + 4 < d)
      by (apply Htest; reflexivity).
    lia.
  - split; [|auto]. intros Hfar.
    apply Htest in Hfar. discriminate.
Qed.

(** X7.  Once a reading inside the trigger band has been drawn, a reading
    that is as far or farther changes neither the frame nor what the strip
    shows: the bar does not retract during a parking session. *)
Theorem X7_bar_never_retracts (c : Controller) (now1 now2 d1 d2 : Z) :
  state c = PARKING_STATE ->
  Z.of_nat (length (leds c)) = NUM_LEDS ->
  MIN_TRIGGER_DISTANCE <= d1 -> d1 <= d2 -> d2 <= MAX_TRIGGER_DISTANCE ->
  exists c1 c2,
    PingRecieved now1 d1 c = Some c1
    /\ PingRecieved now2 d2 c1 = Some c2
    /\ leds c2 = leds c1
    /\ shown c2 = shown c1.
Proof.
  intros Hs Hlen H1 H12 H2.
  destruct (parkingPing_draws now1 d1 c Hlen ltac:(lia))
    as (c1 & Hc1 & _ & Hd1 & Hsh1 & Hs1).
  assert (Hlen1 : Z.of_nat (length (leds c1)) = NUM_LEDS) by apply Hd1.
  destruct (parkingPing_draws now2 d2 c1 Hlen1 ltac:(lia))
    as (c2 & Hc2 & Hrun2 & _ & Hsh2 & Hs2).
  assert (Hsame : drawBar (litLedsFor d2) (leds c1) = Some (leds c1)).
  { apply (forUpTo_absorbed NUM_LEDS colorIndex (leds c) (leds c1)
             (litLedsFor d1) (litLedsFor d2)).
    - pose proof (Async_litLedsFor_range d1). change NUM_LEDS with 24. lia.
    - pose proof (Async_litLedsFor_range d2).
      pose proof (Async_litLedsFor_antitone d1 d2 H12). lia.
    - exact Hd1. }
  rewrite Hsame in Hrun2. injection Hrun2 as Heq.
  exists c1, c2. unfold PingRecieved. rewrite Hs.
  split; [assumption|].
  rewrite Hs1, Hs. split; [assumption|].
  split; [congruence|]. rewrite Hsh2, Hsh1. congruence.
Qed.

End AsyncParking.

Section AsyncDisplay.

Context {pal : Palette}.

Import Async.

(** X8.  The callback-driven sketch writes the pixel buffer or pushes a
    frame in two places only: on a reading inside the trigger band while in
    [PARKING_STATE], and in the entry actions of [PARKED_STATE].  Nothing
    is drawn or blanked in [AWAY_STATE]. *)
Theorem X8_display_written_in_two_places (a : Action) (c c' : Controller) :
  exec a c = Some c' ->
  leds c' <> leds c \/ shown c' <> shown c ->
  (state c = PARKING_STATE
   /\ exists now d, a = Callback now (Reading d)
        /\ MIN_TRIGGER_DISTANCE <= d <= MAX_TRIGGER_DISTANCE)
  \/ (state c = PARKED_STATE /\ isTransitioning c = true
      /\ exists now, a = Tick now).
Proof.
  intros He Hch.
  assert (Hkept : leds c' = leds c /\ shown c' = shown c -> False)
    by (intros [H1 H2]; destruct Hch as [H|H]; apply H; assumption).
  destruct a as [now [d|]|now]; cbn [exec Update] in He.
  - unfold PingRecieved in He. destruct (state c) eqn:Hs.
    + injection He as <-. exfalso. apply Hkept.
      unfold awayPingReceived. destruct (_ && _); auto.
    + left. split; [reflexivity|]. exists now, d. split; [reflexivity|].
      unfold parkingPingReceived in He.
      destruct (Z.ltb_spec d MIN_TRIGGER_DISTANCE);
        [injection He as <-; exfalso; apply Hkept; auto|].
      destruct (Z.ltb_spec MAX_TRIGGER_DISTANCE d);
        [injection He as <-; exfalso; apply Hkept; auto|].
      lia.
    + injection He as <-. exfalso. apply Hkept.
      unfold parkedPingReceived. destruct (_ <? _); auto.
  - injection He as <-. exfalso. apply Hkept.
    unfold PingTimeout. destruct (state c); auto.
  - injection He as <-.
    destruct (isTransitioning c) eqn:Hf.
    + destruct (state c) eqn:Hs.
      * exfalso. apply Hkept. unfold tick. rewrite Hs.
        unfold tickAway. rewrite Hf. auto.
      * exfalso. apply Hkept. unfold tick. rewrite Hs.
        unfold tickParking. rewrite Hf. async_fields.
        destruct (LightChrono.hasPassed _ _ _); auto.
      * right. eauto.
    + exfalso. apply Hkept.
      destruct (tick_settled now c Hf) as [->|[_ ->]]; auto.
Qed.

End AsyncDisplay.

(** X9.  The bar of the callback-driven sketch is full, twelve pixels per
    half, exactly for distances up to 15 inches, and empty exactly from
    [MAX_DISPLAY_DISTANCE] on. *)
Theorem X9_async_full_and_empty_bar (d : Z) :
  (Async.litLedsFor d = Async.NUM_LEDS / 2 <-> d <= 15)
  /\ (Async.litLedsFor d = 0 <-> Async.MAX_DISPLAY_DISTANCE <= d).
Proof.
  rewrite Async_litLedsFor_eq.
  change (Async.NUM_LEDS / 2) with 12. change Async.MAX_DISPLAY_DISTANCE with 80.
  unfold Arduino.constrain.
  destruct (Z.ltb_spec d 10).
  - change (12 * (10 - 10) / 70) with 0. lia.
  - destruct (Z.ltb_spec 80 d).
    + change (12 * (80 - 10) / 70) with 12. lia.
    + pose proof (Z.div_mod (12 * (d - 10)) 70 ltac:(lia)).
      pose proof (Z.mod_pos_bound (12 * (d - 10)) 70 ltac:(lia)).
      lia.
Qed.

(** ** The polled state machine *)

Section PollingMachine.

Context {pal : Palette} {rst : ChronoReset}.

Import Polling.

(** X10.  In [AWAY_STATE] of the polled sketch a tick takes a reading when
    the read timer has run for half a second, and restarts the timer; any
    reading that is not 0, whatever the distance, starts a parking session.
    A reading of 0 or a tick that takes no reading stays in [AWAY_STATE]
    with the flag clear.  The frame and the level are not touched. *)
Theorem X10_polling_away (c : Controller) (now reading later : Z) :
  state c = AWAY_STATE ->
  exists c', loop now reading later c = Some c'
    /\ leds c' = leds c /\ shown c' = shown c /\ level c' = level c
    /\ (LightChrono.hasPassed now (readTimer c)
          (1000 ÷ INFREQUENT_READS_PER_SECOND) = true ->
        readTimer c' = now
        /\ (0 < reading ->
              state c' = PARKING_STATE /\ isTransitioning c' = true)
        /\ (reading <= 0 ->
              state c' = AWAY_STATE /\ isTransitioning c' = false))
    /\ (LightChrono.hasPassed now (readTimer c)
          (1000 ÷ INFREQUENT_READS_PER_SECOND) = false ->
        readTimer c' = readTimer c
        /\ state c' = AWAY_STATE /\ isTransitioning c' = false).
Proof.
  intros Hs. unfold loop. rewrite Hs.
  eexists. split; [reflexivity|]. unfold tickAway.
  destruct (isTransitioning c) eqn:Hf; polling_fields;
    destruct (LightChrono.hasPassed now (readTimer c) _); polling_fields;
    destruct (Z.ltb_spec 0 reading); polling_fields;
    repeat first [split | intro]; try discriminate; try lia; auto.
Qed.

(** X11.  In [PARKING_STATE] of the polled sketch, past the entry actions:
    the tick ends in [PARKED_STATE] with the flag set exactly when the
    inactivity timer had run for five seconds when the tick began.  A
    reading is taken when the read timer has run for 100 ms at that
    instant, and the read timer restarts there.  Every reading that is not
    0 sets the level and calls [reset()] on the inactivity timer, at the
    instant [readDistance()] returned, whether or not the distance has
    changed; a reading of 0, or a tick that takes no reading, leaves the
    level and the inactivity timer alone. *)
Theorem X11_polling_parking (c : Controller) (now reading later : Z) :
  state c = PARKING_STATE ->
  isTransitioning c = false ->
  Z.of_nat (length (leds c)) = NUM_LEDS ->
  0 <= level c <= 255 ->
  exists c', loop now reading later c = Some c'
    /\ state c'
       = (if LightChrono.hasPassed now (inactivityTimer c)
               (INACTIVITY_SECONDS * 1000)
          then PARKED_STATE else PARKING_STATE)
    /\ isTransitioning c'
       = LightChrono.hasPassed now (inactivityTimer c)
           (INACTIVITY_SECONDS * 1000)
    /\ (LightChrono.hasPassed now (readTimer c)
          (1000 ÷ MAX_READS_PER_SECOND) = true ->
        readTimer c' = now
        /\ (0 < reading ->
              level c' = levelFor reading
              /\ inactivityTimer c'
                 = LightChrono_reset later (inactivityTimer c))
        /\ (reading <= 0 ->
              level c' = level c
              /\ inactivityTimer c' = inactivityTimer c))
    /\ (LightChrono.hasPassed now (readTimer c)
          (1000 ÷ MAX_READS_PER_SECOND) = false ->
        readTimer c' = readTimer c
        /\ level c' = level c
        /\ inactivityTimer c' = inactivityTimer c).
Proof.
  intros Hs Hf Hlen Hlev. unfold loop. rewrite Hs.
  unfold tickParking. rewrite Hf.
  pose proof (Polling_levelFor_range reading) as Hnew.
  destruct (Polling_drawBar_drawn (litLedsFor (level c)) (leds c) Hlen
              (Polling_litLedsFor_range (level c) Hlev)) as (la & Hla & _).
  destruct (Polling_drawBar_drawn (litLedsFor (levelFor reading)) (leds c) Hlen
              (Polling_litLedsFor_range (levelFor reading) Hnew))
    as (lb & Hlb & _).
  destruct (LightChrono.hasPassed now (inactivityTimer c) _); polling_fields;
    destruct (LightChrono.hasPassed now (readTimer c) _); polling_fields;
    destruct (Z.ltb_spec 0 reading); polling_fields;
    destruct (LightChrono.hasPassed _ (nextFrameTimer c) _); polling_fields;
    try rewrite Hla; try rewrite Hlb;
    eexists; (split; [reflexivity|]); polling_fields;
    repeat first [split | intro]; try discriminate; try lia; auto.
Qed.

(** X12.  One iteration of the polled [loop()] either keeps the state and
    ends with the flag clear, or moves one step along the cycle away,
    parking, parked, away and ends with the flag set.  An iteration that
    begins with the flag set first prints the name of the state it is in. *)
Theorem X12_polling_cycle (c c' : Controller) (now reading later : Z) :
  loop now reading later c = Some c' ->
  ((state c' = state c /\ isTransitioning c' = false)
   \/ (isTransitioning c' = true
       /\ ((state c = AWAY_STATE /\ state c' = PARKING_STATE)
           \/ (state c = PARKING_STATE /\ state c' = PARKED_STATE)
           \/ (state c = PARKED_STATE /\ state c' = AWAY_STATE))))
  /\ (isTransitioning c = true ->
        exists rest,
          serial c'
          = serial c
            ++ OutLine (match state c with
                        | AWAY_STATE => "AWAY"
                        | PARKING_STATE => "PARKING"
                        | PARKED_STATE => "PARKED"
                        end) :: rest).
Proof.
  unfold loop. destruct (state c) eqn:Hs.
  - intros [= <-]. unfold tickAway.
    destruct (isTransitioning c) eqn:Hf; polling_fields;
      destruct (LightChrono.hasPassed _ _ _); polling_fields;
      try destruct (Z.ltb_spec 0 reading); polling_fields;
      rewrite ?Hs; (split; [auto 10|]); intros; try discriminate;
      rewrite <- ?app_assoc; eexists; reflexivity.
  - unfold tickParking.
    destruct (isTransitioning c) eqn:Hf; polling_fields;
      destruct (LightChrono.hasPassed now _ (INACTIVITY_SECONDS * 1000));
      polling_fields;
      destruct (LightChrono.hasPassed now _ (1000 ÷ MAX_READS_PER_SECOND));
      polling_fields;
      try destruct (Z.ltb_spec 0 reading); polling_fields;
      destruct (LightChrono.hasPassed _ _ (1000 ÷ FRAMES_PER_SECOND));
      polling_fields;
      try (destruct (drawBar _ _); [|discriminate]);
      intros [= <-]; polling_fields;
      rewrite ?Hs; (split; [auto 10|]); intros; try discriminate;
      rewrite <- ?app_assoc; eexists; reflexivity.
  - intros [= <-]. unfold tickParked.
    destruct (isTransitioning c) eqn:Hf; polling_fields;
      destruct (LightChrono.hasPassed _ _ _); polling_fields;
      try destruct (Z.ltb_spec 0 reading); polling_fields;
      rewrite ?Hs; (split; [auto 10|]); intros; try discriminate;
      rewrite <- ?app_assoc; eexists; reflexivity.
Qed.

End PollingMachine.


(** ** [parking_helper.ino] *)

(** X14.  The pixel count of [parking_helper.ino] in closed form: one
    more pixel per half for every 55 cm beyond 30 cm, none below 85 cm
    (none on a timeout, which reads as 0) and all five from 305 cm on. *)
Theorem X14_sketch_lit_count (d : Z) :
  0 <= d <= 429496759 ->
  Sketch.litLedsFor d = Z.min 5 (Z.max 0 ((d - 30) / 55)).
Proof.
  intros Hd. rewrite Sketch_litLedsFor_eq by assumption.
  destruct (Z_lt_le_dec d 30) as [Hnear|Hfar].
  - replace ((d - 30) * 5) with (- ((30 - d) * 5)) by lia.
    rewrite Z.quot_opp_l by lia.
    rewrite Z.quot_small by lia.
    assert ((d - 30) / 55 = -1).
    { symmetry. apply Z.div_unique with (r := d + 25); lia. }
    replace ((d - 30) / 55) with (-1) by lia. reflexivity.
  - rewrite Z.quot_div_nonneg by lia.
    change 275 with (55 * 5).
    rewrite Z.div_mul_cancel_r by lia.
    pose proof (Z.div_pos (d - 30) 55 ltac:(lia) ltac:(lia)).
    unfold Arduino.constrain.
    destruct (Z.ltb_spec ((d - 30) / 55) 0); [lia|].
    destruct (Z.ltb_spec 5 ((d - 30) / 55)); lia.
Qed.

Section SketchFrame.

Context {pal : Palette}.

(** X15.  Every pass of [loop()] in [parking_helper.ino] redraws the bar
    from a blank frame: the frame it leaves and pushes is determined by the
    distance alone, whatever the buffer held before.  The outer
    [litLeds] pixels of either end carry their palette colour, every pixel
    between them is off. *)
Theorem X15_sketch_frame_from_distance (d : Z) (g1 g2 : Sketch.Globals) :
  Z.of_nat (length (Sketch.leds g1)) = Sketch.NUM_LEDS ->
  Z.of_nat (length (Sketch.leds g2)) = Sketch.NUM_LEDS ->
  exists g1' g2',
    Sketch.loop d g1 = Some g1'
    /\ Sketch.loop d g2 = Some g2'
    /\ Sketch.leds g1' = Sketch.leds g2'
    /\ Sketch.shown g1' = Some (Sketch.leds g1')
    /\ Z.of_nat (length (Sketch.leds g1')) = Sketch.NUM_LEDS
    /\ (forall i, 0 <= i < Sketch.litLedsFor d ->
          Sketch.leds g1' !! Z.to_nat i
          = Some (ColorFromPalette (Sketch.colorIndex i))
          /\ Sketch.leds g1' !! Z.to_nat (Sketch.NUM_LEDS - 1 - i)
             = Some (ColorFromPalette (Sketch.colorIndex i)))
    /\ (forall j, Sketch.litLedsFor d <= j
                  < Sketch.NUM_LEDS - Sketch.litLedsFor d ->
          Sketch.leds g1' !! Z.to_nat j = Some Black).
Proof.
  intros H1 H2. unfold Sketch.loop.
  rewrite (fill_solid_full (Sketch.leds g1)) by assumption.
  rewrite (fill_solid_full (Sketch.leds g2)) by assumption.
  pose proof (Sketch_litLedsFor_range d) as Hr.
  assert (Hblank : Z.of_nat (length (replicate (Z.to_nat Sketch.NUM_LEDS) Black))
                   = Sketch.NUM_LEDS)
    by (rewrite length_replicate; reflexivity).
  destruct (Sketch_drawBar_drawn (Sketch.litLedsFor d)
              (replicate (Z.to_nat Sketch.NUM_LEDS) Black) Hblank Hr)
    as (l & -> & Hlen & Hlit & Hmid).
  eexists. eexists.
  split; [reflexivity|]. split; [reflexivity|].
  cbn [Sketch.leds Sketch.shown].
  split; [reflexivity|]. split; [reflexivity|]. split; [assumption|].
  split; [assumption|].
  intros j Hj. rewrite Hmid by assumption.
  apply lookup_replicate_2. change Sketch.NUM_LEDS with 10 in *. lia.
Qed.

End SketchFrame.

(** ** The further properties on concrete runs *)

Lemma X1_async_transition_cycle_witness :
  Async.exec (pal := rampPalette) (Async.Callback 0 (Async.Reading 50))
    Async.setup
  = Some (Async.transitionTo Async.PARKING_STATE Async.setup)
  /\ Async.state (Async.transitionTo Async.PARKING_STATE Async.setup)
     <> Async.state Async.setup
  /\ Async.isTransitioning (Async.transitionTo Async.PARKING_STATE Async.setup)
     = true.
Proof.
  assert (He : Async.exec (pal := rampPalette)
                 (Async.Callback 0 (Async.Reading 50)) Async.setup
               = Some (Async.transitionTo Async.PARKING_STATE Async.setup))
    by reflexivity.
  assert (Hne : Async.state (Async.transitionTo Async.PARKING_STATE Async.setup)
                <> Async.state Async.setup) by discriminate.
  split; [exact He|]. split; [exact Hne|].
  exact (proj1 (X1_async_transition_cycle (pal := rampPalette)
                  (Async.Callback 0 (Async.Reading 50)) Async.setup
                  (Async.transitionTo Async.PARKING_STATE Async.setup)
                  He Hne)).
Defined.

(** The timer was restarted 296 ms before [millis()] wrapped; the tick comes
    at 5704 ms after the wrap, six seconds later. *)
Lemma X2_inactivity_deadline_witness :
  Async.tick (u32 (4294967000 + 6000))
    (Async.set_inactivityTimer 4294967000
       (Async.set_isTransitioning false
          (Async.set_state Async.PARKING_STATE Async.setup)))
  = Async.transitionTo Async.PARKED_STATE
      (Async.set_inactivityTimer 4294967000
         (Async.set_isTransitioning false
            (Async.set_state Async.PARKING_STATE Async.setup))).
Proof.
  refine (proj1 (X2_inactivity_deadline
                   (Async.set_inactivityTimer 4294967000
                      (Async.set_isTransitioning false
                         (Async.set_state Async.PARKING_STATE Async.setup)))
                   6000 eq_refl eq_refl _) _); lia.
Defined.

Lemma X3_entry_within_iteration_witness :
  exists c',
    Async.loop (pal := rampPalette) 0 (Some (Async.Reading 50)) Async.setup
    = Some c'
    /\ Async.state c' = Async.PARKING_STATE
    /\ Async.isTransitioning c' = false
    /\ Async.triggerInterval c' = Some Async.FAST_TRIGGER_INTERVAL.
Proof.
  assert (Hrun : exists c',
             Async.loop (pal := rampPalette) 0 (Some (Async.Reading 50))
               Async.setup = Some c'
             /\ Async.state c' = Async.PARKING_STATE)
    by (eexists; split; [vm_compute; reflexivity | reflexivity]).
  destruct Hrun as (c' & Hloop & Hs).
  destruct (proj2 (X3_entry_within_iteration (pal := rampPalette)
                     0 (Some (Async.Reading 50)) Async.setup c' Hloop))
    as (Hf & Hint & _).
  { rewrite Hs. discriminate. }
  { rewrite Hs. discriminate. }
  exists c'. rewrite Hs in Hint. auto.
Defined.

Lemma X4_trigger_interval_follows_state_witness :
  exists c,
    Async.execAll (pal := rampPalette)
      [Async.Tick 0; Async.Callback 10 (Async.Reading 50); Async.Tick 10]
      Async.setup = Some c
    /\ Async.state c = Async.PARKING_STATE
    /\ Async.triggerInterval c = Some Async.FAST_TRIGGER_INTERVAL.
Proof.
  assert (Hrun : exists c,
             Async.execAll (pal := rampPalette)
               [Async.Tick 0; Async.Callback 10 (Async.Reading 50);
                Async.Tick 10] Async.setup = Some c
             /\ Async.state c = Async.PARKING_STATE
             /\ Async.isTransitioning c = false)
    by (eexists; split; [vm_compute; reflexivity | split; reflexivity]).
  destruct Hrun as (c & Hrun & Hs & Hf).
  pose proof (X4_trigger_interval_follows_state (pal := rampPalette)
                _ c Hrun Hf) as Hint.
  rewrite Hs in Hint. exists c. auto.
Defined.

Lemma X6_motion_test_witness :
  exists c c',
    Async.execAll (pal := rampPalette)
      [Async.Tick 0; Async.Callback 10 (Async.Reading 50); Async.Tick 10;
       Async.Callback 50 (Async.Reading 50)]
      Async.setup = Some c
    /\ Async.prevDistance c = 50
    /\ Async.PingRecieved (pal := rampPalette) 90 47 c = Some c'
    /\ Async.prevDistance c' = 47
    /\ Async.inactivityTimer c' = 90.
Proof.
  assert (Hrun : exists c,
             Async.execAll (pal := rampPalette)
               [Async.Tick 0; Async.Callback 10 (Async.Reading 50);
                Async.Tick 10; Async.Callback 50 (Async.Reading 50)]
               Async.setup = Some c
             /\ Async.state c = Async.PARKING_STATE
             /\ Async.prevDistance c = 50)
    by (eexists; split; [vm_compute; reflexivity | split; reflexivity]).
  destruct Hrun as (c & Hrun & Hs & Hp).
  destruct (X6_motion_test (pal := rampPalette) _ c 90 47 Hrun Hs)
    as (c' & Hc' & _ & _ & Hmoved & _).
  { unfold Async.MIN_TRIGGER_DISTANCE, Async.MAX_TRIGGER_DISTANCE. lia. }
  destruct Hmoved as [Hp' Ht']; [rewrite Hp; lia|].
  exists c, c'. auto.
Defined.

Lemma X7_bar_never_retracts_witness :
  exists c1 c2,
    Async.PingRecieved (pal := rampPalette) 50 20
      (Async.transitionTo Async.PARKING_STATE Async.setup) = Some c1
    /\ Async.PingRecieved (pal := rampPalette) 90 60 c1 = Some c2
    /\ Async.leds c2 = Async.leds c1
    /\ Async.shown c2 = Async.shown c1.
Proof.
  refine (X7_bar_never_retracts (pal := rampPalette)
            (Async.transitionTo Async.PARKING_STATE Async.setup)
            50 90 20 60 eq_refl eq_refl _ _ _);
    unfold Async.MIN_TRIGGER_DISTANCE, Async.MAX_TRIGGER_DISTANCE; lia.
Defined.

Lemma X8_display_written_in_two_places_witness :
  exists c',
    Async.exec (pal := rampPalette) (Async.Callback 50 (Async.Reading 20))
      (Async.transitionTo Async.PARKING_STATE Async.setup) = Some c'
    /\ Async.leds c'
       <> Async.leds (Async.transitionTo Async.PARKING_STATE Async.setup)
    /\ (Async.state (Async.transitionTo Async.PARKING_STATE Async.setup)
        = Async.PARKING_STATE
        \/ Async.state (Async.transitionTo Async.PARKING_STATE Async.setup)
           = Async.PARKED_STATE).
Proof.
  assert (Hrun : exists c',
             Async.exec (pal := rampPalette)
               (Async.Callback 50 (Async.Reading 20))
               (Async.transitionTo Async.PARKING_STATE Async.setup) = Some c'
             /\ Async.leds c'
                <> Async.leds
                     (Async.transitionTo Async.PARKING_STATE Async.setup))
    by (eexists; split; [vm_compute; reflexivity | vm_compute; discriminate]).
  destruct Hrun as (c' & Hrun & Hne).
  exists c'. split; [exact Hrun|]. split; [exact Hne|].
  destruct (X8_display_written_in_two_places (pal := rampPalette)
              _ _ c' Hrun (or_introl Hne)) as [[Hs _]|[Hs _]]; auto.
Defined.

Lemma X10_polling_away_witness :
  exists c',
    Polling.loop (pal := rampPalette) (rst := resetIsRestart) 600 7 640
      Polling.setup = Some c'
    /\ Polling.state c' = Polling.PARKING_STATE
    /\ Polling.readTimer c' = 600.
Proof.
  destruct (X10_polling_away (pal := rampPalette) (rst := resetIsRestart)
              Polling.setup 600 7 640 eq_refl)
    as (c' & Hloop & _ & _ & _ & Hdue & _).
  destruct (Hdue eq_refl) as (Ht & Hnonzero & _).
  exists c'. split; [exact Hloop|]. split; [|exact Ht].
  apply Hnonzero. lia.
Defined.

(** The tick begins at 200 ms; [readDistance()] returns 100 cm at 206 ms. *)
Lemma X11_polling_parking_witness :
  exists c',
    Polling.loop (pal := rampPalette) (rst := resetIsRestart) 200 100 206
      (Polling.set_isTransitioning false
         (Polling.set_state Polling.PARKING_STATE Polling.setup)) = Some c'
    /\ Polling.state c' = Polling.PARKING_STATE
    /\ Polling.readTimer c' = 200
    /\ Polling.level c' = Polling.levelFor 100
    /\ Polling.inactivityTimer c' = 206.
Proof.
  destruct (X11_polling_parking (pal := rampPalette) (rst := resetIsRestart)
              (Polling.set_isTransitioning false
                 (Polling.set_state Polling.PARKING_STATE Polling.setup))
              200 100 206 eq_refl eq_refl eq_refl)
    as (c' & Hloop & Hs & _ & Hread & _).
  { cbn [Polling.level Polling.set_isTransitioning Polling.set_state
         Polling.setup]. lia. }
  destruct (Hread eq_refl) as (Hr & Hecho & _).
  destruct Hecho as [Hl Ht]; [lia|].
  exists c'. auto.
Defined.

Lemma X12_polling_cycle_witness :
  exists c' rest,
    Polling.loop (pal := rampPalette) (rst := resetIsRestart) 600 7 640
      Polling.setup = Some c'
    /\ Polling.serial c' = Polling.serial Polling.setup ++ OutLine "AWAY" :: rest.
Proof.
  assert (Hrun : exists c',
             Polling.loop (pal := rampPalette) (rst := resetIsRestart)
               600 7 640 Polling.setup = Some c')
    by (eexists; vm_compute; reflexivity).
  destruct Hrun as (c' & Hrun).
  destruct (proj2 (X12_polling_cycle (pal := rampPalette)
                     (rst := resetIsRestart)
                     Polling.setup c' 600 7 640 Hrun) eq_refl) as (rest & Hser).
  exists c', rest. auto.
Defined.


Lemma X14_sketch_lit_count_witness :
  Sketch.litLedsFor 140 = Z.min 5 (Z.max 0 ((140 - 30) / 55)).
Proof. apply X14_sketch_lit_count. lia. Defined.

Lemma X15_sketch_frame_from_distance_witness :
  exists g1' g2',
    Sketch.loop (pal := rampPalette) 200 Sketch.setup = Some g1'
    /\ Sketch.loop (pal := rampPalette) 200
         {| Sketch.leds := replicate 10 (mkCRGB 9 9 9);
            Sketch.shown := None;
            Sketch.serial := [] |} = Some g2'
    /\ Sketch.leds g1' = Sketch.leds g2'.
Proof.
  destruct (X15_sketch_frame_from_distance (pal := rampPalette) 200
              Sketch.setup
              {| Sketch.leds := replicate 10 (mkCRGB 9 9 9);
                 Sketch.shown := None;
                 Sketch.serial := [] |} eq_refl eq_refl)
    as (g1' & g2' & H1 & H2 & Heq & _).
  exists g1', g2'. auto.
Defined.
